(** * Project management agent: orchestration and usage metering

    A shallow embedding of [PM_agent.py]: the agent and task catalogues,
    the token usage tracker, the cost estimate, the two crew runs of
    [ProjectManagementSystem], the content of the PDF report, the two
    form handlers of the Streamlit front-end and a pass of its script.

    Conventions.
    - A Python [str] is a [string]; [len] is [String.length], one [ascii]
      standing for one character.  Literals of the source that hold
      characters outside ASCII are kept as their UTF-8 bytes; they are
      only ever compared, never measured.
    - A Python [int] is a [Z]; a Python [float] is a binary64 [float].
    - A [dict] used as a map is a [gmap]; a [list] is a [list].
    - The crew library and the language model behind it are outside the
      file: a run is executed against a [Provider], a function from the
      request the library builds for a task to the text it returns or the
      exception it raises.  The wall clock is an input as well, and so
      is the markup parser of the document library, which decides
      whether a paragraph can be constructed. *)

From Stdlib Require Import ZArith Floats Uint63 String Ascii List Lia DecimalString.
From stdpp Require Import base strings gmap list.
Import ListNotations.

Open Scope Z_scope.

(** ** Python values *)

Module Py.

Definition NL : string := String (ascii_of_nat 10) EmptyString.

(** [len(s)] *)
Definition len (s : string) : Z := Z.of_nat (String.length s).

(** Truth value of a [str] in a condition: non-empty. *)
Definition truthy (s : string) : bool :=
  match s with
  | EmptyString => false
  | String _ _ => true
  end.

(** [xs[-n:]] for a positive literal [n]: the slice starts at
    [max (len xs - n) 0]. *)
Definition slice_last {A} (n : nat) (xs : list A) : list A :=
  drop (length xs - n)%nat xs.

(** [s.replace('\n', new)] *)
Fixpoint replace_newline (new s : string) : string :=
  match s with
  | EmptyString => EmptyString
  | String c rest =>
      if Ascii.eqb c (ascii_of_nat 10)
      then new +:+ replace_newline new rest
      else String c (replace_newline new rest)
  end.

(** [t in s] on strings. *)
Fixpoint contains (s t : string) : bool :=
  String.prefix t s ||
  match s with
  | EmptyString => false
  | String _ rest => contains rest t
  end.

(** [float(n)] for [0 <= n < 2^63]; exact up to [2^53]. *)
Definition float_of_int (n : Z) : float := PrimFloat.of_uint63 (Uint63.of_Z n).

(** [a / b] on two ints: the binary64 nearest to the quotient.  Both
    operands convert exactly below [2^53], where the division of the
    converted operands is that value. *)
Definition truediv (a b : Z) : float :=
  PrimFloat.div (float_of_int a) (float_of_int b).

(** [str(n)] for a natural number. *)
Definition str_of_nat (n : nat) : string := NilZero.string_of_uint (Nat.to_uint n).

(** What a call yields: a value, or an exception with its message. *)
Inductive outcome (A : Type) : Type :=
| Returned (a : A)
| Raised (e : string).
Arguments Returned {A} a.
Arguments Raised {A} e.

Definition is_raised {A} (o : outcome A) : bool :=
  match o with
  | Raised _ => true
  | Returned _ => false
  end.

(** Statements in sequence: an exception ends the sequence. *)
Definition bind {A B} (c : outcome A) (k : A -> outcome B) : outcome B :=
  match c with
  | Returned a => k a
  | Raised e => Raised e
  end.

End Py.
Export Py.

Notation "'let!' x ':=' c 'in' k" := (bind c (fun x => k))
  (at level 10, x name, c at level 200, k at level 200).

(** ** The crew library, as far as the program uses it *)

Module CrewAI.

(** [ChatAnthropic(model=..., temperature=...)] *)
Record LLM := { model : string; temperature : float }.

Record Agent := {
  role : string;
  goal : string;
  backstory : string;
  agent_verbose : bool;
  allow_delegation : bool;
  agent_llm : LLM
}.

Record Task := {
  description : string;
  agent : Agent;
  expected_output : string
}.

Inductive Process := sequential | hierarchical.

Record Crew := {
  agents : list Agent;
  tasks : list Task;
  process : Process;
  crew_verbose : bool
}.

(** What reaches the language model for one task: the agent, the task's
    instruction text and expected output as they were rendered when the
    task was built, and the outputs of the tasks run before it, which a
    sequential crew hands on as context. *)
Record Request := {
  req_agent : Agent;
  req_instructions : string;
  req_expected_output : string;
  req_context : list string
}.

Definition Provider := Request -> outcome string.

Definition request_of (t : Task) (context : list string) : Request :=
  {| req_agent := agent t;
     req_instructions := description t;
     req_expected_output := expected_output t;
     req_context := context |}.

(** Modelled from the spec: [Crew.kickoff] for [Process.sequential]; the
    crew library is not among the sources.  After the pipeline runner of
    the specification: the tasks run strictly in list order, one provider
    call per task, each with the context accumulated so far; a failure of
    the provider ends the run at once and reaches the caller; the result
    is the output of the last task.  The first component lists the
    requests made, in order. *)
Fixpoint execute_tasks (provider : Provider) (ts : list Task)
         (context : list string) (last : string)
  : list Request * outcome string :=
  match ts with
  | [] => ([], Returned last)
  | t :: rest =>
      let rq := request_of t context in
      match provider rq with
      | Raised e => ([rq], Raised e)
      | Returned out =>
          let '(log, r) := execute_tasks provider rest (context ++ [out]) out in
          (rq :: log, r)
      end
  end.

Definition kickoff (provider : Provider) (crew : Crew)
  : list Request * outcome string :=
  execute_tasks provider (tasks crew) [] EmptyString.

End CrewAI.
Export CrewAI.

(** The module-level [llm]: model [claude-sonnet-4-20250514], temperature
    [0.1], written as the binary64 value the literal denotes. *)
Definition llm : LLM :=
  {| model := "claude-sonnet-4-20250514"; temperature := 0x1.999999999999ap-4%float |}.

(** ** Agents *)

Module ProjectManagementAgents.

Definition project_planner : Agent :=
  {| role := "Project Planner";
     goal := "Create comprehensive project plans with clear objectives and milestones";
     backstory := String.concat NL
       [ "You are an experienced project planner with 10+ years ";
         "            of experience in breaking down complex projects into manageable tasks. ";
         "            You excel at identifying dependencies and creating realistic timelines." ];
     agent_verbose := true;
     allow_delegation := false;
     agent_llm := llm |}.

Definition task_allocator : Agent :=
  {| role := "Task Allocator";
     goal := "Efficiently allocate tasks based on team capabilities and availability";
     backstory := String.concat NL
       [ "You are a resource management specialist who understands ";
         "            team dynamics and can match tasks with the right team members based ";
         "            on their skills and workload." ];
     agent_verbose := true;
     allow_delegation := false;
     agent_llm := llm |}.

Definition progress_monitor : Agent :=
  {| role := "Progress Monitor";
     goal := "Track project progress and identify potential risks or delays";
     backstory := String.concat NL
       [ "You are a detail-oriented project monitor who tracks ";
         "            progress, identifies bottlenecks, and suggests corrective actions ";
         "            to keep projects on schedule." ];
     agent_verbose := true;
     allow_delegation := false;
     agent_llm := llm |}.

Definition quality_reviewer : Agent :=
  {| role := "Quality Reviewer";
     goal := "Ensure project deliverables meet quality standards";
     backstory := String.concat NL
       [ "You are a quality assurance expert who reviews project ";
         "            outputs and ensures they meet the defined standards and requirements." ];
     agent_verbose := true;
     allow_delegation := false;
     agent_llm := llm |}.

End ProjectManagementAgents.

(** ** Tasks *)

Module ProjectManagementTasks.

Definition indent : string := "            ".

Definition create_project_plan (a : Agent) (project_description : string) : Task :=
  {| description := String.concat NL
       [ "";
         indent +:+ "Create a detailed project plan for: " +:+ project_description;
         indent;
         indent +:+ "Your plan should include:";
         indent +:+ "1. Project objectives and scope";
         indent +:+ "2. Key milestones and deliverables";
         indent +:+ "3. Timeline with phases";
         indent +:+ "4. Required resources";
         indent +:+ "5. Success criteria";
         indent +:+ "6. Potential risks and mitigation strategies";
         indent ];
     agent := a;
     expected_output := "A comprehensive project plan with all required elements" |}.

Definition allocate_tasks (a : Agent) (project_plan team_info : string) : Task :=
  {| description := String.concat NL
       [ "";
         indent +:+ "Based on the project plan and team information, allocate tasks:";
         indent;
         indent +:+ "Project Plan: " +:+ project_plan;
         indent +:+ "Team Information: " +:+ team_info;
         indent;
         indent +:+ "Create task assignments that consider:";
         indent +:+ "1. Team member skills and expertise";
         indent +:+ "2. Current workload and availability";
         indent +:+ "3. Task dependencies";
         indent +:+ "4. Priority levels";
         indent +:+ "5. Estimated effort for each task";
         indent ];
     agent := a;
     expected_output := "Detailed task allocation with assignments and timelines" |}.

Definition monitor_progress (a : Agent) (project_status : string) : Task :=
  {| description := String.concat NL
       [ "";
         indent +:+ "Analyze the current project status and provide insights:";
         indent;
         indent +:+ "Current Status: " +:+ project_status;
         indent;
         indent +:+ "Your analysis should include:";
         indent +:+ "1. Overall progress assessment";
         indent +:+ "2. Completed vs pending tasks";
         indent +:+ "3. Identified bottlenecks or delays";
         indent +:+ "4. Risk assessment";
         indent +:+ "5. Recommended actions to stay on track";
         indent ];
     agent := a;
     expected_output := "Progress report with analysis and recommendations" |}.

Definition review_quality (a : Agent) (deliverables : string) : Task :=
  {| description := String.concat NL
       [ "";
         indent +:+ "Review the project deliverables for quality:";
         indent;
         indent +:+ "Deliverables: " +:+ deliverables;
         indent;
         indent +:+ "Your review should assess:";
         indent +:+ "1. Completeness of deliverables";
         indent +:+ "2. Compliance with requirements";
         indent +:+ "3. Quality standards met";
         indent +:+ "4. Areas for improvement";
         indent +:+ "5. Final recommendations";
         indent ];
     agent := a;
     expected_output := "Quality review report with detailed assessment" |}.

End ProjectManagementTasks.

(** ** Token usage tracker *)

Module TokenUsageTracker.

(** One entry of [session_history]. *)
Record UsageItem := {
  timestamp : string;
  operation : string;
  tokens : Z;
  cost : float
}.

Record t := {
  total_tokens : Z;
  total_cost : float;
  session_history : list UsageItem
}.

Definition __init__ : t :=
  {| total_tokens := 0; total_cost := 0%float; session_history := [] |}.

(** [now] is [datetime.now().strftime("%H:%M:%S")]. *)
Definition add_usage (now : string) (tokens_used : Z) (cost_ : float)
           (operation_ : string) (self : t) : t :=
  {| total_tokens := total_tokens self + tokens_used;
     total_cost := (total_cost self + cost_)%float;
     session_history :=
       session_history self ++
         [ {| timestamp := now; operation := operation_;
              tokens := tokens_used; cost := cost_ |} ] |}.

(** The dictionary [get_summary] returns; [history] is the tracker's own
    list, not a copy. *)
Record Summary := {
  s_total_tokens : Z;
  s_total_cost : float;
  s_operations : Z;
  s_history : list UsageItem
}.

Definition get_summary (self : t) : Summary :=
  {| s_total_tokens := total_tokens self;
     s_total_cost := total_cost self;
     s_operations := Z.of_nat (length (session_history self));
     s_history := session_history self |}.

(** The values [format_summary] interpolates into its text: the three
    header figures and one line per item of [history[-5:]].  Turning the
    numbers into digits is left to the formatter. *)
Record FormattedSummary := {
  f_total_tokens : Z;
  f_total_cost : float;
  f_operations : Z;
  f_recent : list UsageItem
}.

Definition format_summary (self : t) : FormattedSummary :=
  let summary := get_summary self in
  {| f_total_tokens := s_total_tokens summary;
     f_total_cost := s_total_cost summary;
     f_operations := s_operations summary;
     f_recent := slice_last 5 (s_history summary) |}.

End TokenUsageTracker.

(** ** PDF report generator *)

Module PDFReportGenerator.

Inductive Style := title_style | heading_style | normal_style | footer_style.

(** A table cell, with the conversion the source applies to its value:
    a string as it is, [f"{n:,}"], [f"${c:.4f}"] and [str(n)]. *)
Inductive Cell :=
| CText (s : string)
| CGrouped (n : Z)
| CDollars (c : float)
| CInt (n : Z).

(** The flowables of the story.  A table keeps its rows and its column
    widths in inches; its [TableStyle] is presentation only. *)
Inductive Flowable :=
| Paragraph (text : string) (style : Style)
| Spacer (width height : Z)
| Table (rows : list (list Cell)) (colWidths : list Z).

Definition history_row (item : TokenUsageTracker.UsageItem) : list Cell :=
  [ CText (TokenUsageTracker.timestamp item);
    CText (TokenUsageTracker.operation item);
    CInt (TokenUsageTracker.tokens item);
    CDollars (TokenUsageTracker.cost item) ].

(** The markup parser of the document library, which is not among the
    sources: the error it raises on a paragraph text that is not
    well-formed markup, if any. *)
Definition MarkupParser := string -> option string.

(** [Paragraph(text, style)]: the text is parsed when the paragraph is
    constructed, and a text the parser refuses raises there. *)
Definition paragraph (parse : MarkupParser) (text : string) (style : Style)
  : outcome Flowable :=
  match parse text with
  | Some e => Raised e
  | None => Returned (Paragraph text style)
  end.

Definition usage_table (token_usage : TokenUsageTracker.Summary) : Flowable :=
  Table
    [ [ CText "Metric"; CText "Value" ];
      [ CText "Total Tokens Used";
        CGrouped (TokenUsageTracker.s_total_tokens token_usage) ];
      [ CText "Estimated Cost";
        CDollars (TokenUsageTracker.s_total_cost token_usage) ];
      [ CText "Operations Performed";
        CInt (TokenUsageTracker.s_operations token_usage) ] ]
    [ 2; 2 ].

Definition history_table (token_usage : TokenUsageTracker.Summary) : Flowable :=
  Table
    ([ CText "Time"; CText "Operation"; CText "Tokens"; CText "Cost" ]
       :: map history_row
            (slice_last 10 (TokenUsageTracker.s_history token_usage)))
    [ 1; 2; 1; 1 ].

(** [generate_project_report]: the story handed to [doc.build], or the
    exception of the first paragraph that cannot be constructed;
    [report_date] is [datetime.now().strftime("%B %d, %Y at %I:%M %p")].
    Laying the story out into bytes is the document library's work. *)
Definition generate_project_report (parse : MarkupParser) (report_date : string)
           (project_data : gmap string string)
           (token_usage : TokenUsageTracker.Summary) : outcome (list Flowable) :=
  let! title := paragraph parse "🚀 Project Management Report" title_style in
  let! generated := paragraph parse ("<b>Generated:</b> " +:+ report_date) normal_style in
  let! overview :=
    match project_data !! "project_description" with
    | Some v =>
        let! heading := paragraph parse "📋 Project Overview" heading_style in
        let! text := paragraph parse ("<b>Description:</b> " +:+ v) normal_style in
        Returned [ heading; text ]
    | None => Returned []
    end in
  let! team :=
    match project_data !! "team_info" with
    | Some v =>
        let! text := paragraph parse ("<b>Team:</b> " +:+ v) normal_style in
        Returned [ text; Spacer 1 15 ]
    | None => Returned []
    end in
  let! plan :=
    match project_data !! "project_plan" with
    | Some v =>
        let! heading := paragraph parse "🎯 Project Plan" heading_style in
        let! text := paragraph parse (replace_newline "<br/>" v) normal_style in
        Returned [ heading; text; Spacer 1 15 ]
    | None => Returned []
    end in
  let! analysis :=
    match project_data !! "status_analysis" with
    | Some v =>
        let! heading := paragraph parse "📊 Status Analysis" heading_style in
        let! text := paragraph parse (replace_newline "<br/>" v) normal_style in
        Returned [ heading; text; Spacer 1 15 ]
    | None => Returned []
    end in
  let! usage := paragraph parse "💰 Token Usage Summary" heading_style in
  let! history :=
    match TokenUsageTracker.s_history token_usage with
    | [] => Returned []
    | _ :: _ =>
        let! heading := paragraph parse "🕒 Operation History" heading_style in
        Returned [ heading; history_table token_usage ]
    end in
  let! footer :=
    paragraph parse "Generated by AI-Powered Project Management System" footer_style in
  Returned
    ([ title; Spacer 1 20; generated; Spacer 1 20 ]
     ++ overview ++ team ++ plan ++ analysis
     ++ [ usage; usage_table token_usage; Spacer 1 15 ]
     ++ history
     ++ [ Spacer 1 30; footer ]).

(** The flowables of the story in the order the function constructs
    them, were every paragraph accepted. *)
Definition story_plan (report_date : string)
           (project_data : gmap string string)
           (token_usage : TokenUsageTracker.Summary) : list Flowable :=
  [ Paragraph "🚀 Project Management Report" title_style;
    Spacer 1 20;
    Paragraph ("<b>Generated:</b> " +:+ report_date) normal_style;
    Spacer 1 20 ]
  ++ match project_data !! "project_description" with
     | Some v =>
         [ Paragraph "📋 Project Overview" heading_style;
           Paragraph ("<b>Description:</b> " +:+ v) normal_style ]
     | None => []
     end
  ++ match project_data !! "team_info" with
     | Some v =>
         [ Paragraph ("<b>Team:</b> " +:+ v) normal_style;
           Spacer 1 15 ]
     | None => []
     end
  ++ match project_data !! "project_plan" with
     | Some v =>
         [ Paragraph "🎯 Project Plan" heading_style;
           Paragraph (replace_newline "<br/>" v) normal_style;
           Spacer 1 15 ]
     | None => []
     end
  ++ match project_data !! "status_analysis" with
     | Some v =>
         [ Paragraph "📊 Status Analysis" heading_style;
           Paragraph (replace_newline "<br/>" v) normal_style;
           Spacer 1 15 ]
     | None => []
     end
  ++ [ Paragraph "💰 Token Usage Summary" heading_style;
       Table
         [ [ CText "Metric"; CText "Value" ];
           [ CText "Total Tokens Used";
             CGrouped (TokenUsageTracker.s_total_tokens token_usage) ];
           [ CText "Estimated Cost";
             CDollars (TokenUsageTracker.s_total_cost token_usage) ];
           [ CText "Operations Performed";
             CInt (TokenUsageTracker.s_operations token_usage) ] ]
         [ 2; 2 ];
       Spacer 1 15 ]
  ++ match TokenUsageTracker.s_history token_usage with
     | [] => []
     | _ :: _ =>
         [ Paragraph "🕒 Operation History" heading_style;
           Table
             ([ CText "Time"; CText "Operation"; CText "Tokens"; CText "Cost" ]
                :: map history_row
                     (slice_last 10 (TokenUsageTracker.s_history token_usage)))
             [ 1; 2; 1; 1 ] ]
     end
  ++ [ Spacer 1 30;
       Paragraph "Generated by AI-Powered Project Management System" footer_style ].

(** The paragraphs of a story. *)
Definition paragraph_texts (story : list Flowable) : list string :=
  flat_map (fun f => match f with Paragraph text _ => [text] | _ => [] end) story.

(** The error of the first paragraph text, in order, that the parser
    refuses. *)
Fixpoint first_markup_error (parse : MarkupParser) (texts : list string)
  : option string :=
  match texts with
  | [] => None
  | text :: rest =>
      match parse text with
      | Some e => Some e
      | None => first_markup_error parse rest
      end
  end.

(** Some paragraph of the story shows the text [v]. *)
Definition shows (story : list Flowable) (v : string) : bool :=
  existsb (fun text => contains text v) (paragraph_texts story).

End PDFReportGenerator.

(** ** The project management system *)

Module ProjectManagementSystem.

(** The two fields of the object that change; [agents], [tasks] and
    [pdf_generator] hold no state. *)
Record t := {
  token_tracker : TokenUsageTracker.t;
  report_data : gmap string string
}.

Definition __init__ : t :=
  {| token_tracker := TokenUsageTracker.__init__; report_data := ∅ |}.

Definition _estimate_tokens_and_cost (text : string) : Z * float :=
  let estimated_tokens := len text / 4 in
  let estimated_cost := (truediv estimated_tokens 1000000 * 9)%float in
  (estimated_tokens, estimated_cost).

(** What a call of an entry point did: the provider requests made, what
    the call returned or raised, and the object afterwards. *)
Record Run := {
  calls : list Request;
  result : outcome string;
  after : t
}.

(** The [Crew(...)] built by [run_project_planning]. *)
Definition planning_crew (project_description team_info : string) : Crew :=
  let planner := ProjectManagementAgents.project_planner in
  let allocator := ProjectManagementAgents.task_allocator in
  let monitor := ProjectManagementAgents.progress_monitor in
  let planning_task :=
    ProjectManagementTasks.create_project_plan planner project_description in
  let allocation_task :=
    ProjectManagementTasks.allocate_tasks allocator project_description team_info in
  {| agents := [planner; allocator; monitor];
     tasks := [planning_task; allocation_task];
     process := sequential;
     crew_verbose := true |}.

(** [provider] answers the calls made during [crew.kickoff()]; [now] is
    the clock reading taken by [add_usage]. *)
Definition run_project_planning (provider : Provider) (now : string)
           (project_description team_info : string) (self : t) : Run :=
  let crew := planning_crew project_description team_info in
  let input_text := project_description +:+ " " +:+ team_info in
  let '(log, kicked) := kickoff provider crew in
  match kicked with
  | Raised e => {| calls := log; result := Raised e; after := self |}
  | Returned result_ =>
      let report_data' :=
        <["project_plan" := result_]>
          (<["team_info" := team_info]>
             (<["project_description" := project_description]> (report_data self))) in
      let result_text := result_ in
      let '(tokens_used, cost_) := _estimate_tokens_and_cost (input_text +:+ result_text) in
      {| calls := log;
         result := Returned result_;
         after :=
           {| token_tracker :=
                TokenUsageTracker.add_usage now tokens_used cost_ "Project Planning"
                  (token_tracker self);
              report_data := report_data' |} |}
  end.

(** The [Crew(...)] built by [analyze_project_status]. *)
Definition analysis_crew (project_status deliverables : string) : Crew :=
  let monitor := ProjectManagementAgents.progress_monitor in
  let reviewer := ProjectManagementAgents.quality_reviewer in
  let monitoring_task := ProjectManagementTasks.monitor_progress monitor project_status in
  let review_task := ProjectManagementTasks.review_quality reviewer deliverables in
  {| agents := [monitor; reviewer];
     tasks := [monitoring_task; review_task];
     process := sequential;
     crew_verbose := true |}.

Definition analyze_project_status (provider : Provider) (now : string)
           (project_status deliverables : string) (self : t) : Run :=
  let crew := analysis_crew project_status deliverables in
  let input_text := project_status +:+ " " +:+ deliverables in
  let '(log, kicked) := kickoff provider crew in
  match kicked with
  | Raised e => {| calls := log; result := Raised e; after := self |}
  | Returned result_ =>
      let report_data' :=
        <["status_analysis" := result_]>
          (<["deliverables" := deliverables]>
             (<["project_status" := project_status]> (report_data self))) in
      let result_text := result_ in
      let '(tokens_used, cost_) := _estimate_tokens_and_cost (input_text +:+ result_text) in
      {| calls := log;
         result := Returned result_;
         after :=
           {| token_tracker :=
                TokenUsageTracker.add_usage now tokens_used cost_ "Status Analysis"
                  (token_tracker self);
              report_data := report_data' |} |}
  end.

Definition generate_pdf_report (parse : PDFReportGenerator.MarkupParser)
           (report_date : string) (self : t)
  : outcome (list PDFReportGenerator.Flowable) :=
  PDFReportGenerator.generate_project_report parse report_date
    (report_data self) (TokenUsageTracker.get_summary (token_tracker self)).

(** The roles of the agents the provider was called for, in call order. *)
Definition invoked_roles (r : Run) : list string :=
  map (fun rq => role (req_agent rq)) (calls r).

(** The requests a sequential run of the two crews makes: the first task
    has no context, the second has the output of the first. *)
Definition planner_request (project_description : string) : Request :=
  request_of
    (ProjectManagementTasks.create_project_plan
       ProjectManagementAgents.project_planner project_description) [].

Definition allocator_request (project_description team_info planner_output : string)
  : Request :=
  request_of
    (ProjectManagementTasks.allocate_tasks
       ProjectManagementAgents.task_allocator project_description team_info)
    [planner_output].

Definition monitor_request (project_status : string) : Request :=
  request_of
    (ProjectManagementTasks.monitor_progress
       ProjectManagementAgents.progress_monitor project_status) [].

Definition reviewer_request (deliverables monitor_output : string) : Request :=
  request_of
    (ProjectManagementTasks.review_quality
       ProjectManagementAgents.quality_reviewer deliverables)
    [monitor_output].

(** Some provider call of the run raised. *)
Definition provider_failed (provider : Provider) (r : Run) : bool :=
  existsb (fun rq => is_raised (provider rq)) (calls r).

End ProjectManagementSystem.

(** ** The two form handlers of the front-end *)

Module Streamlit.

(** What the branch of a tab renders: nothing, the output areas with the
    success notice, or the error notice built from [str(e)]. *)
Inductive Shown :=
| Idle
| Completed (output : string) (usage : TokenUsageTracker.FormattedSummary)
| Failed (message : string).

Record Handled := {
  provider_calls : list Request;
  shown : Shown;
  system_after : ProjectManagementSystem.t
}.

(** [if plan_button and project_desc and team_info: try: ... except ...] *)
Definition planning_tab (provider : Provider) (now : string) (plan_button : bool)
           (project_desc team_info : string) (system : ProjectManagementSystem.t) : Handled :=
  if plan_button && truthy project_desc && truthy team_info then
    let r := ProjectManagementSystem.run_project_planning
               provider now project_desc team_info system in
    match ProjectManagementSystem.result r with
    | Returned result_ =>
        {| provider_calls := ProjectManagementSystem.calls r;
           shown := Completed
                      ("✅ Project Planning Complete:" +:+ NL +:+ NL +:+ result_)
                      (TokenUsageTracker.format_summary
                         (ProjectManagementSystem.token_tracker
                            (ProjectManagementSystem.after r)));
           system_after := ProjectManagementSystem.after r |}
    | Raised e =>
        {| provider_calls := ProjectManagementSystem.calls r;
           shown := Failed ("❌ Error in planning: " +:+ e);
           system_after := ProjectManagementSystem.after r |}
    end
  else {| provider_calls := []; shown := Idle; system_after := system |}.

(** [if analyze_button and status_info and deliverables_info: try: ... except ...] *)
Definition status_tab (provider : Provider) (now : string) (analyze_button : bool)
           (status_info deliverables_info : string) (system : ProjectManagementSystem.t) : Handled :=
  if analyze_button && truthy status_info && truthy deliverables_info then
    let r := ProjectManagementSystem.analyze_project_status
               provider now status_info deliverables_info system in
    match ProjectManagementSystem.result r with
    | Returned result_ =>
        {| provider_calls := ProjectManagementSystem.calls r;
           shown := Completed
                      ("✅ Status Analysis Complete:" +:+ NL +:+ NL +:+ result_)
                      (TokenUsageTracker.format_summary
                         (ProjectManagementSystem.token_tracker
                            (ProjectManagementSystem.after r)));
           system_after := ProjectManagementSystem.after r |}
    | Raised e =>
        {| provider_calls := ProjectManagementSystem.calls r;
           shown := Failed ("❌ Error in analysis: " +:+ e);
           system_after := ProjectManagementSystem.after r |}
    end
  else {| provider_calls := []; shown := Idle; system_after := system |}.

End Streamlit.

(** ** Sessions *)

Module Session.

(** The calls a session makes on its tracker, each with the clock reading
    it takes. *)
Record Append := {
  at_time : string;
  tokens_used : Z;
  cost_ : float;
  label : string
}.

Definition append (tr : TokenUsageTracker.t) (a : Append) : TokenUsageTracker.t :=
  TokenUsageTracker.add_usage (at_time a) (tokens_used a) (cost_ a) (label a) tr.

Definition appends (l : list Append) : TokenUsageTracker.t :=
  fold_left append l TokenUsageTracker.__init__.

Definition item_of (a : Append) : TokenUsageTracker.UsageItem :=
  {| TokenUsageTracker.timestamp := at_time a;
     TokenUsageTracker.operation := label a;
     TokenUsageTracker.tokens := tokens_used a;
     TokenUsageTracker.cost := cost_ a |}.

(** The sums of the recorded figures, taken in append order from [0]; the
    costs are added in binary64, as the tracker adds them. *)
Definition sum_tokens (h : list TokenUsageTracker.UsageItem) : Z :=
  fold_left (fun acc r => acc + TokenUsageTracker.tokens r) h 0.

Definition sum_cost (h : list TokenUsageTracker.UsageItem) : float :=
  fold_left (fun acc r => (acc + TokenUsageTracker.cost r)%float) h 0%float.

(** The totals agree with the records. *)
Definition totals_match (tr : TokenUsageTracker.t) : Prop :=
  TokenUsageTracker.total_tokens tr = sum_tokens (TokenUsageTracker.session_history tr) /\
  TokenUsageTracker.total_cost tr = sum_cost (TokenUsageTracker.session_history tr).

(** The operations on a [ProjectManagementSystem], each with the provider
    and the clock it meets. *)
Inductive op :=
| Plan (provider : Provider) (now : string) (project_description team_info : string)
| Analyze (provider : Provider) (now : string) (project_status deliverables : string)
| PdfReport (report_date : string)
| GetSummary
| FormatSummary.

Definition apply_op (s : ProjectManagementSystem.t) (o : op) : ProjectManagementSystem.t :=
  match o with
  | Plan provider now d t =>
      ProjectManagementSystem.after
        (ProjectManagementSystem.run_project_planning provider now d t s)
  | Analyze provider now st dl =>
      ProjectManagementSystem.after
        (ProjectManagementSystem.analyze_project_status provider now st dl s)
  | PdfReport _ | GetSummary | FormatSummary => s
  end.

Definition run_ops (os : list op) : ProjectManagementSystem.t :=
  fold_left apply_op os ProjectManagementSystem.__init__.

End Session.

(** ** Test providers *)

Module Stub.

(** Answers every request with ["<role>:<instructions-length>"]. *)
Definition echo : Provider :=
  fun rq =>
    Returned (role (req_agent rq) +:+ ":" +:+
              str_of_nat (String.length (req_instructions rq))).

(** Raises for the agent with role [r], echoes for the others. *)
Definition failing_for (r : string) : Provider :=
  fun rq =>
    if String.eqb (role (req_agent rq)) r
    then Raised "provider unavailable"
    else echo rq.

(** A markup parser that knows the tags [<b>], [</b>] and [<br/>]: it
    refuses any other tag, a [</b>] without its [<b>], a [<b>] inside
    another and a [<b>] left open. *)
Fixpoint markup_scan (bold : bool) (s : string) : option string :=
  match s with
  | EmptyString => if bold then Some "unclosed <b> tag" else None
  | String c rest =>
      if Ascii.eqb c "<" then
        if String.prefix "<br/>" s then markup_scan bold rest
        else if String.prefix "<b>" s then
          (if bold then Some "nested <b> tag" else markup_scan true rest)
        else if String.prefix "</b>" s then
          (if bold then markup_scan false rest else Some "unexpected </b> tag")
        else Some "unknown tag"
      else markup_scan bold rest
  end.

Definition markup : PDFReportGenerator.MarkupParser := markup_scan false.

End Stub.

(** ** The fixed text of the task templates *)

Module Templates.

Import ProjectManagementTasks.

(** The text of each f-string before, between and after its fields. *)
Definition plan_head : string :=
  NL +:+ indent +:+ "Create a detailed project plan for: ".

Definition plan_tail : string :=
  String.concat NL
    [ "";
      indent;
      indent +:+ "Your plan should include:";
      indent +:+ "1. Project objectives and scope";
      indent +:+ "2. Key milestones and deliverables";
      indent +:+ "3. Timeline with phases";
      indent +:+ "4. Required resources";
      indent +:+ "5. Success criteria";
      indent +:+ "6. Potential risks and mitigation strategies";
      indent ].

Definition allocation_head : string :=
  String.concat NL
    [ "";
      indent +:+ "Based on the project plan and team information, allocate tasks:";
      indent;
      indent +:+ "Project Plan: " ].

Definition allocation_middle : string :=
  NL +:+ indent +:+ "Team Information: ".

Definition allocation_tail : string :=
  String.concat NL
    [ "";
      indent;
      indent +:+ "Create task assignments that consider:";
      indent +:+ "1. Team member skills and expertise";
      indent +:+ "2. Current workload and availability";
      indent +:+ "3. Task dependencies";
      indent +:+ "4. Priority levels";
      indent +:+ "5. Estimated effort for each task";
      indent ].

Definition monitoring_head : string :=
  String.concat NL
    [ "";
      indent +:+ "Analyze the current project status and provide insights:";
      indent;
      indent +:+ "Current Status: " ].

Definition monitoring_tail : string :=
  String.concat NL
    [ "";
      indent;
      indent +:+ "Your analysis should include:";
      indent +:+ "1. Overall progress assessment";
      indent +:+ "2. Completed vs pending tasks";
      indent +:+ "3. Identified bottlenecks or delays";
      indent +:+ "4. Risk assessment";
      indent +:+ "5. Recommended actions to stay on track";
      indent ].

Definition review_head : string :=
  String.concat NL
    [ "";
      indent +:+ "Review the project deliverables for quality:";
      indent;
      indent +:+ "Deliverables: " ].

Definition review_tail : string :=
  String.concat NL
    [ "";
      indent;
      indent +:+ "Your review should assess:";
      indent +:+ "1. Completeness of deliverables";
      indent +:+ "2. Compliance with requirements";
      indent +:+ "3. Quality standards met";
      indent +:+ "4. Areas for improvement";
      indent +:+ "5. Final recommendations";
      indent ].

End Templates.

(** ** Strings, character by character *)

Module Chars.

(** The number of newline characters of a string. *)
Fixpoint count_newlines (s : string) : nat :=
  match s with
  | EmptyString => 0
  | String c rest =>
      if Ascii.eqb c (ascii_of_nat 10)
      then S (count_newlines rest)
      else count_newlines rest
  end.

End Chars.

(** ** What a session has done *)

Module History.

(** The label a successful operation leaves in the ledger; an operation
    that raises, or that only reads, leaves none. *)
Definition label_of (o : Session.op) : option string :=
  match o with
  | Session.Plan provider _ d t =>
      match snd (kickoff provider (ProjectManagementSystem.planning_crew d t)) with
      | Returned _ => Some "Project Planning"
      | Raised _ => None
      end
  | Session.Analyze provider _ st dl =>
      match snd (kickoff provider (ProjectManagementSystem.analysis_crew st dl)) with
      | Returned _ => Some "Status Analysis"
      | Raised _ => None
      end
  | Session.PdfReport _ | Session.GetSummary | Session.FormatSummary => None
  end.

Definition labels (s : ProjectManagementSystem.t) : list string :=
  map TokenUsageTracker.operation
      (TokenUsageTracker.session_history (ProjectManagementSystem.token_tracker s)).

(** Every record counts a non-negative number of tokens under one of the
    two operation labels. *)
Definition ledger_well_formed (tr : TokenUsageTracker.t) : Prop :=
  Forall (fun r =>
            0 <= TokenUsageTracker.tokens r /\
            (TokenUsageTracker.operation r = "Project Planning" \/
             TokenUsageTracker.operation r = "Status Analysis"))
         (TokenUsageTracker.session_history tr).

Definition planning_keys : list string :=
  [ "project_description"; "team_info"; "project_plan" ].

Definition analysis_keys : list string :=
  [ "project_status"; "deliverables"; "status_analysis" ].

(** The report data holds the sections of the operations the ledger
    records, and nothing else. *)
Definition report_matches_ledger (s : ProjectManagementSystem.t) : Prop :=
  (forall k, is_Some (ProjectManagementSystem.report_data s !! k) ->
             In k (planning_keys ++ analysis_keys)) /\
  (forall k, In k planning_keys ->
             (is_Some (ProjectManagementSystem.report_data s !! k) <->
              In "Project Planning" (labels s))) /\
  (forall k, In k analysis_keys ->
             (is_Some (ProjectManagementSystem.report_data s !! k) <->
              In "Status Analysis" (labels s))).

End History.

(** ** One pass of the front-end script *)

Module App.

(** What the script reads: the environment variable, and the widgets. *)
Record Inputs := {
  api_key : option string;
  pdf_button : bool;
  project_desc : string;
  team_info : string;
  plan_button : bool;
  status_info : string;
  deliverables_info : string;
  analyze_button : bool;
  refresh_button : bool
}.

(** The clock readings of a pass: the date line and the file name stamp
    of the report, and the times of the two runs. *)
Record Clock := {
  report_date : string;
  file_stamp : string;
  plan_time : string;
  status_time : string
}.

(** The report section above the tabs: not shown, shown with its button
    idle, shown with the download of the report just built, or shown
    with the error notice of a report that could not be built. *)
Inductive PdfSection :=
| Hidden
| Offered
| Download (file_name : string) (story : list PDFReportGenerator.Flowable)
| PdfError (message : string).

Record Pass := {
  stopped : bool;
  pdf : PdfSection;
  plan_area : Streamlit.Shown;
  status_area : Streamlit.Shown;
  usage_area : option TokenUsageTracker.FormattedSummary;
  rerun : bool;
  pass_calls : list Request;
  session : ProjectManagementSystem.t
}.

(** [not os.getenv("ANTHROPIC_API_KEY")] *)
Definition key_missing (k : option string) : bool :=
  match k with
  | None => true
  | Some v => negb (truthy v)
  end.

(** [run_streamlit_app]: one execution of the script, from the session
    object kept in [st.session_state] (none on the first pass) to the one
    it leaves there.  [st.stop()] ends the pass; so does [st.rerun()],
    before the usage summary is drawn.  The report is built from the
    system as the pass finds it, before the tabs run; an exception while
    it is built is caught and shown. *)
Definition run_streamlit_app (parse : PDFReportGenerator.MarkupParser)
           (provider : Provider) (clock : Clock)
           (session_state : option ProjectManagementSystem.t) (inp : Inputs) : Pass :=
  let system :=
    match session_state with
    | Some s => s
    | None => ProjectManagementSystem.__init__
    end in
  if key_missing (api_key inp) then
    {| stopped := true; pdf := Hidden;
       plan_area := Streamlit.Idle; status_area := Streamlit.Idle;
       usage_area := None; rerun := false; pass_calls := []; session := system |}
  else
    let pdf_ :=
      if bool_decide (ProjectManagementSystem.report_data system = ∅) then Hidden
      else if pdf_button inp then
        match ProjectManagementSystem.generate_pdf_report parse
                (report_date clock) system with
        | Returned story =>
            Download ("project_report_" +:+ file_stamp clock +:+ ".pdf") story
        | Raised e => PdfError ("❌ Error generating PDF: " +:+ e)
        end
      else Offered in
    let h1 := Streamlit.planning_tab provider (plan_time clock) (plan_button inp)
                (project_desc inp) (team_info inp) system in
    let h2 := Streamlit.status_tab provider (status_time clock) (analyze_button inp)
                (status_info inp) (deliverables_info inp) (Streamlit.system_after h1) in
    let final := Streamlit.system_after h2 in
    {| stopped := false; pdf := pdf_;
       plan_area := Streamlit.shown h1; status_area := Streamlit.shown h2;
       usage_area :=
         if refresh_button inp then None
         else Some (TokenUsageTracker.format_summary
                      (ProjectManagementSystem.token_tracker final));
       rerun := refresh_button inp;
       pass_calls := Streamlit.provider_calls h1 ++ Streamlit.provider_calls h2;
       session := final |}.

(** A session of the front-end: the passes of the script, one after the
    other, each with its provider, clock and inputs. *)
Definition run_passes (parse : PDFReportGenerator.MarkupParser)
           (passes : list (Provider * Clock * Inputs))
  : option ProjectManagementSystem.t :=
  fold_left (fun st p => Some (session (run_streamlit_app parse p.1.1 p.1.2 st p.2)))
            passes None.

(** The form of a tab is submitted: its button is pressed and both of
    its fields are filled in. *)
Definition submitted (button : bool) (a b : string) : bool :=
  button && truthy a && truthy b.

(** The runs a pass makes, in order. *)
Definition pass_ops (provider : Provider) (clock : Clock) (inp : Inputs)
  : list Session.op :=
  if key_missing (api_key inp) then []
  else
    (if submitted (plan_button inp) (project_desc inp) (team_info inp)
     then [Session.Plan provider (plan_time clock) (project_desc inp) (team_info inp)]
     else [])
    ++
    (if submitted (analyze_button inp) (status_info inp) (deliverables_info inp)
     then [Session.Analyze provider (status_time clock)
             (status_info inp) (deliverables_info inp)]
     else []).

End App.

(** ** Tactics *)

(** A flowable that differs from every element of a piece of the story
    is not in that piece. *)
Ltac absent_from_piece :=
  let Hin := fresh "Hin" in
  cbn [In]; intros Hin;
  repeat (destruct Hin as [Hin | Hin]; [discriminate Hin |]); exact Hin.

Ltac absent_from_section project_data key :=
  destruct (project_data !! key); absent_from_piece.

(** Two maps built by inserts agree at every key. *)
Ltac same_lookups :=
  apply map_eq; intros ?; rewrite !lookup_insert;
  repeat case_decide; subst; congruence.

(** The next paragraph to construct: refused, the function raises;
    accepted, it goes on. *)
Ltac next_paragraph parse :=
  match goal with
  | |- _ = match match parse ?text with _ => _ end with _ => _ end =>
      destruct (parse text) eqn:?; cbn [bind]; [reflexivity |]
  end.

(** The two directions of a case of the report section. *)
Ltac pdf_forward :=
  let H := fresh "H" in
  intros H;
  first [ discriminate H
        | injection H as ?; subst; repeat split; try (eexists; split; reflexivity)
        | repeat split ].

Ltac pdf_backward :=
  let H := fresh "H" in
  intros H;
  repeat match goal with
         | H : _ /\ _ |- _ => destruct H
         | H : exists _, _ |- _ => destruct H
         end;
  congruence.

(** * Properties *)

Import TokenUsageTracker PDFReportGenerator ProjectManagementSystem.

(** ** Python slices *)

Lemma slice_last_short {A} (n : nat) (xs : list A) :
  (length xs <= n)%nat -> slice_last n xs = xs.
Proof.
  intros Hle. unfold slice_last.
  replace (length xs - n)%nat with 0%nat by lia. reflexivity.
Qed.

Lemma slice_last_length {A} (n : nat) (xs : list A) :
  (n <= length xs)%nat -> length (slice_last n xs) = n.
Proof. intros Hle. unfold slice_last. rewrite length_drop. lia. Qed.

Lemma slice_last_suffix {A} (n : nat) (xs : list A) :
  xs = take (length xs - n)%nat xs ++ slice_last n xs.
Proof. unfold slice_last. symmetry. apply take_drop. Qed.

Lemma slice_last_app {A} (older recent : list A) :
  slice_last (length recent) (older ++ recent) = recent.
Proof.
  unfold slice_last. rewrite length_app.
  replace (length older + length recent - length recent)%nat
    with (length older) by lia.
  apply drop_app_length.
Qed.

(** ** Building the report *)

(** The report is the planned story when the parser accepts every
    paragraph text of it, and otherwise the error of the first text, in
    the order of construction, that it refuses. *)
Lemma generate_project_report_eq (parse : MarkupParser) (report_date : string)
      (project_data : gmap string string) (token_usage : Summary) :
  generate_project_report parse report_date project_data token_usage =
  match first_markup_error parse
          (paragraph_texts (story_plan report_date project_data token_usage)) with
  | Some e => Raised e
  | None => Returned (story_plan report_date project_data token_usage)
  end.
Proof.
  unfold generate_project_report, story_plan, usage_table, history_table, paragraph.
  destruct (project_data !! "project_description");
    destruct (project_data !! "team_info");
    destruct (project_data !! "project_plan");
    destruct (project_data !! "status_analysis");
    destruct (s_history token_usage);
    cbn [app paragraph_texts flat_map first_markup_error];
    repeat next_paragraph parse;
    reflexivity.
Qed.

Lemma first_markup_error_none (parse : MarkupParser) (texts : list string) :
  first_markup_error parse texts = None <->
  forall text, In text texts -> parse text = None.
Proof.
  induction texts as [| t texts IH]; cbn [first_markup_error In].
  - split; [intros _ text [] | reflexivity].
  - destruct (parse t) eqn:Et.
    + split; [discriminate |]. intros H. rewrite (H t) in Et by now left. discriminate.
    + rewrite IH. split.
      * intros H text [<- | Hin]; [exact Et | now apply H].
      * intros H text Hin. apply H. now right.
Qed.

Lemma first_markup_error_some (parse : MarkupParser) (texts : list string) (e : string) :
  first_markup_error parse texts = Some e ->
  exists text, In text texts /\ parse text = Some e.
Proof.
  induction texts as [| t texts IH]; cbn [first_markup_error In]; [discriminate |].
  destruct (parse t) eqn:Et.
  - intros [= <-]. exists t. split; [now left | exact Et].
  - intros H. destruct (IH H) as (text & Hin & Ht). exists text. split; [now right | exact Ht].
Qed.

Lemma generate_returned (parse : MarkupParser) (report_date : string)
      (project_data : gmap string string) (token_usage : Summary)
      (story : list Flowable) :
  generate_project_report parse report_date project_data token_usage = Returned story ->
  story = story_plan report_date project_data token_usage /\
  forall text, In text (paragraph_texts story) -> parse text = None.
Proof.
  rewrite generate_project_report_eq.
  destruct (first_markup_error parse _) eqn:E; [discriminate |].
  intros [= <-]. split; [reflexivity |]. now apply first_markup_error_none.
Qed.

Lemma generate_raised (parse : MarkupParser) (report_date : string)
      (project_data : gmap string string) (token_usage : Summary) (e : string) :
  generate_project_report parse report_date project_data token_usage = Raised e ->
  exists text,
    In text (paragraph_texts (story_plan report_date project_data token_usage)) /\
    parse text = Some e.
Proof.
  rewrite generate_project_report_eq.
  destruct (first_markup_error parse _) eqn:E; [| discriminate].
  intros [= <-]. now apply first_markup_error_some.
Qed.

Lemma generate_accepted (parse : MarkupParser) (report_date : string)
      (project_data : gmap string string) (token_usage : Summary) :
  (forall text,
      In text (paragraph_texts (story_plan report_date project_data token_usage)) ->
      parse text = None) ->
  generate_project_report parse report_date project_data token_usage =
  Returned (story_plan report_date project_data token_usage).
Proof.
  intros Hok. rewrite generate_project_report_eq.
  now rewrite (proj2 (first_markup_error_none parse _) Hok).
Qed.

(** ** The two entry points, case by case *)

(** The record a successful planning run appends. *)
Lemma run_project_planning_cases (provider : Provider) (now d t : string)
      (self : ProjectManagementSystem.t) :
  let r := run_project_planning provider now d t self in
  (exists e, result r = Raised e /\ after r = self) \/
  (exists res,
      result r = Returned res /\
      after r =
        {| token_tracker :=
             add_usage now
               (fst (_estimate_tokens_and_cost ((d +:+ " " +:+ t) +:+ res)))
               (snd (_estimate_tokens_and_cost ((d +:+ " " +:+ t) +:+ res)))
               "Project Planning" (token_tracker self);
           report_data :=
             <["project_plan" := res]>
               (<["team_info" := t]>
                  (<["project_description" := d]> (report_data self))) |}).
Proof.
  unfold run_project_planning.
  destruct (kickoff provider (planning_crew d t)) as [log [res | e]]; cbn.
  - right. exists res. split; reflexivity.
  - left. exists e. split; reflexivity.
Qed.

Lemma analyze_project_status_cases (provider : Provider) (now st dl : string)
      (self : ProjectManagementSystem.t) :
  let r := analyze_project_status provider now st dl self in
  (exists e, result r = Raised e /\ after r = self) \/
  (exists res,
      result r = Returned res /\
      after r =
        {| token_tracker :=
             add_usage now
               (fst (_estimate_tokens_and_cost ((st +:+ " " +:+ dl) +:+ res)))
               (snd (_estimate_tokens_and_cost ((st +:+ " " +:+ dl) +:+ res)))
               "Status Analysis" (token_tracker self);
           report_data :=
             <["status_analysis" := res]>
               (<["deliverables" := dl]>
                  (<["project_status" := st]> (report_data self))) |}).
Proof.
  unfold analyze_project_status.
  destruct (kickoff provider (analysis_crew st dl)) as [log [res | e]]; cbn.
  - right. exists res. split; reflexivity.
  - left. exists e. split; reflexivity.
Qed.

(** ** Cost estimate *)

Lemma len_nonneg (s : string) : 0 <= len s.
Proof. unfold len. lia. Qed.

Lemma estimated_tokens_nonneg (text : string) :
  0 <= fst (_estimate_tokens_and_cost text).
Proof. cbn. apply Z.div_pos; [apply len_nonneg | lia]. Qed.

(** Every count is the length of some text. *)
Lemma every_count_is_a_length (n : nat) :
  exists text, len text = Z.of_nat n.
Proof.
  induction n as [| n [text IH]].
  - exists EmptyString. reflexivity.
  - exists (String "x" text). unfold len in *. cbn [String.length]. lia.
Qed.

(** C1: for a text of [charCount] characters the estimate is
    [units = floor (charCount / 4)], that is the one integer with
    [4 * units <= charCount < 4 * units + 4], and
    [cost = units / 1_000_000 * 9.0]; the empty text gives [(0, 0.0)].
    The estimate is a total function of the text. *)
Theorem estimate_tokens_and_cost_spec (text : string) :
  let charCount := len text in
  let units := fst (_estimate_tokens_and_cost text) in
  let cost := snd (_estimate_tokens_and_cost text) in
  0 <= charCount /\
  units = charCount / 4 /\
  4 * units <= charCount < 4 * units + 4 /\
  cost = (truediv units 1000000 * 9)%float /\
  _estimate_tokens_and_cost EmptyString = (0, 0%float).
Proof.
  cbn. repeat split.
  - apply len_nonneg.
  - pose proof (Z.mul_div_le (len text) 4). lia.
  - pose proof (Z.mul_succ_div_gt (len text) 4). lia.
Qed.

(** ** Usage ledger *)

Lemma add_usage_totals_match (now : string) (n : Z) (c : float) (o : string)
      (tr : TokenUsageTracker.t) :
  Session.totals_match tr -> Session.totals_match (add_usage now n c o tr).
Proof.
  intros [Htok Hcost]. unfold Session.totals_match, add_usage; cbn.
  unfold Session.sum_tokens, Session.sum_cost.
  rewrite !fold_left_app; cbn.
  split; [f_equal; exact Htok | f_equal; exact Hcost].
Qed.

Lemma fresh_totals_match : Session.totals_match TokenUsageTracker.__init__.
Proof. split; reflexivity. Qed.

Lemma fold_append_history (l : list Session.Append) (tr : TokenUsageTracker.t) :
  session_history (fold_left Session.append l tr) =
  session_history tr ++ map Session.item_of l.
Proof.
  revert tr. induction l as [| a l IH]; intros tr; cbn.
  - now rewrite app_nil_r.
  - rewrite IH. cbn. now rewrite <- app_assoc.
Qed.

Lemma fold_append_totals_match (l : list Session.Append) (tr : TokenUsageTracker.t) :
  Session.totals_match tr -> Session.totals_match (fold_left Session.append l tr).
Proof.
  revert tr. induction l as [| a l IH]; intros tr Hok; cbn.
  - exact Hok.
  - apply IH. now apply add_usage_totals_match.
Qed.

Lemma apply_op_totals_match (s : ProjectManagementSystem.t) (o : Session.op) :
  Session.totals_match (token_tracker s) ->
  Session.totals_match (token_tracker (Session.apply_op s o)).
Proof.
  intros Hok. destruct o as [p now d t | p now st dl | | |]; cbn; try exact Hok.
  - destruct (run_project_planning_cases p now d t s) as [(e & _ & ->) | (res & _ & ->)];
      [exact Hok | now apply add_usage_totals_match].
  - destruct (analyze_project_status_cases p now st dl s) as [(e & _ & ->) | (res & _ & ->)];
      [exact Hok | now apply add_usage_totals_match].
Qed.

Lemma fold_ops_totals_match (os : list Session.op) (s : ProjectManagementSystem.t) :
  Session.totals_match (token_tracker s) ->
  Session.totals_match (token_tracker (fold_left Session.apply_op os s)).
Proof.
  revert s. induction os as [| o os IH]; intros s Hok; cbn.
  - exact Hok.
  - apply IH. now apply apply_op_totals_match.
Qed.

(** C2: after any sequence of appends to a fresh tracker the summary
    holds the appended records in order, its total of tokens is the sum
    of their tokens and its total cost is the sum of their costs (added
    in append order, in the tracker's own arithmetic); and the totals
    agree with the records after any sequence of operations of the
    system, which touch them through [add_usage] only. *)
Theorem totals_equal_sums_of_records :
  (forall l : list Session.Append,
      let summary := get_summary (Session.appends l) in
      s_history summary = map Session.item_of l /\
      s_total_tokens summary = Session.sum_tokens (s_history summary) /\
      s_total_cost summary = Session.sum_cost (s_history summary) /\
      s_operations summary = Z.of_nat (length l)) /\
  (forall os : list Session.op,
      Session.totals_match (token_tracker (Session.run_ops os))).
Proof.
  split.
  - intros l. cbn. unfold Session.appends.
    pose proof (fold_append_totals_match l _ fresh_totals_match) as [Htok Hcost].
    pose proof (fold_append_history l TokenUsageTracker.__init__) as Hh.
    cbn in Hh. repeat split; try assumption.
    rewrite Hh, length_map. reflexivity.
  - intros os. apply fold_ops_totals_match. exact fresh_totals_match.
Qed.

(** [2 / 1_000_000 * 9.0] is the binary64 value printed [1.8e-05]. *)
Example estimate_nine_characters :
  _estimate_tokens_and_cost "abcdefghi" = (2, 0x1.2dfd694ccab3fp-16%float).
Proof. vm_compute. reflexivity. Qed.

Example estimate_four_million_units :
  (truediv 4000000 1000000 * 9)%float = 36%float.
Proof. vm_compute. reflexivity. Qed.

(** ** Recent records *)

Lemma apply_op_history_grows (s : ProjectManagementSystem.t) (o : Session.op) :
  exists extra,
    session_history (token_tracker (Session.apply_op s o)) =
    session_history (token_tracker s) ++ extra.
Proof.
  destruct o as [p now d t | p now st dl | | |]; cbn;
    try (exists []; now rewrite app_nil_r).
  - destruct (run_project_planning_cases p now d t s) as [(e & _ & ->) | (res & _ & ->)].
    + exists []. now rewrite app_nil_r.
    + cbn. eexists. reflexivity.
  - destruct (analyze_project_status_cases p now st dl s) as [(e & _ & ->) | (res & _ & ->)].
    + exists []. now rewrite app_nil_r.
    + cbn. eexists. reflexivity.
Qed.

Lemma fold_ops_history_grows (os : list Session.op) (s : ProjectManagementSystem.t) :
  exists extra,
    session_history (token_tracker (fold_left Session.apply_op os s)) =
    session_history (token_tracker s) ++ extra.
Proof.
  revert s. induction os as [| o os IH]; intros s; cbn.
  - exists []. now rewrite app_nil_r.
  - destruct (IH (Session.apply_op s o)) as [extra2 ->].
    destruct (apply_op_history_grows s o) as [extra1 ->].
    exists (extra1 ++ extra2). now rewrite app_assoc.
Qed.

Lemma history_table_in_plan (report_date : string) (project_data : gmap string string)
      (token_usage : Summary) (rows : list (list Cell)) :
  In (Table rows [ 1; 2; 1; 1 ]) (story_plan report_date project_data token_usage) <->
  s_history token_usage <> [] /\
  rows =
    [ CText "Time"; CText "Operation"; CText "Tokens"; CText "Cost" ]
      :: map (fun item =>
                [ CText (timestamp item); CText (operation item);
                  CInt (tokens item); CDollars (cost item) ])
             (slice_last 10 (s_history token_usage)).
Proof.
  unfold story_plan. rewrite !in_app_iff. split.
  - intros [Hin | [Hin | [Hin | [Hin | [Hin | [Hin | [Hin | Hin]]]]]]].
    + exfalso; revert Hin. absent_from_piece.
    + exfalso; revert Hin. absent_from_section project_data "project_description".
    + exfalso; revert Hin. absent_from_section project_data "team_info".
    + exfalso; revert Hin. absent_from_section project_data "project_plan".
    + exfalso; revert Hin. absent_from_section project_data "status_analysis".
    + exfalso; revert Hin. absent_from_piece.
    + destruct (s_history token_usage) as [| i h]; [destruct Hin |].
      destruct Hin as [Hin | [Hin | []]]; [discriminate Hin |].
      injection Hin as <-. split; [discriminate | reflexivity].
    + exfalso; revert Hin. absent_from_piece.
  - intros [Hne ->]. do 6 right. left.
    destruct (s_history token_usage) as [| i h]; [congruence |].
    right. left. reflexivity.
Qed.

(** C3: the recent records are the last [limit] records of the history,
    in append order, when it holds at least [limit] of them, and the whole
    history when it holds fewer; the inline summary takes [limit = 5]; a
    report that is built takes [limit = 10] and shows, after its header
    row, one row per such record with its time, operation, tokens and
    cost, and no such table when the history is empty; an append keeps
    every earlier record where and as it was, and so does every
    operation of the system. *)
Theorem recent_records_are_the_last_appended
        (tr : TokenUsageTracker.t) (parse : MarkupParser) (report_date : string)
        (project_data : gmap string string) :
  let h := session_history tr in
  (forall (limit : nat) (older recent : list UsageItem),
      h = older ++ recent -> length recent = limit ->
      slice_last limit h = recent) /\
  (forall limit : nat,
      (limit <= length h)%nat ->
      length (slice_last limit h) = limit /\
      h = take (length h - limit) h ++ slice_last limit h) /\
  (forall limit : nat, (length h < limit)%nat -> slice_last limit h = h) /\
  f_recent (format_summary tr) = slice_last 5 h /\
  (forall (story : list Flowable) (rows : list (list Cell)),
      generate_project_report parse report_date project_data (get_summary tr)
        = Returned story ->
      (In (Table rows [ 1; 2; 1; 1 ]) story <->
       h <> [] /\
       rows =
         [ CText "Time"; CText "Operation"; CText "Tokens"; CText "Cost" ]
           :: map (fun item =>
                     [ CText (timestamp item); CText (operation item);
                       CInt (tokens item); CDollars (cost item) ])
                  (slice_last 10 h))) /\
  (forall (now : string) (n : Z) (c : float) (o : string),
      session_history (add_usage now n c o tr) =
      h ++ [ {| timestamp := now; operation := o; tokens := n; cost := c |} ]) /\
  (forall (s : ProjectManagementSystem.t) (os : list Session.op),
      token_tracker s = tr ->
      exists extra,
        session_history (token_tracker (fold_left Session.apply_op os s)) = h ++ extra).
Proof.
  cbn zeta.
  split; [intros limit older recent -> <-; apply slice_last_app |].
  split; [intros limit Hle; split;
          [now apply slice_last_length | apply slice_last_suffix] |].
  split; [intros limit Hlt; apply slice_last_short; lia |].
  split; [reflexivity |].
  split.
  - intros story rows Hgen. apply generate_returned in Hgen as [-> _].
    apply history_table_in_plan.
  - split; [reflexivity |].
    intros s os <-. apply fold_ops_history_grows.
Qed.

(** ** Runs of a crew *)

Section Kickoff.

Variable provider : Provider.

(** A run either ends at the first provider call that raises, with that
    exception, or returns after calls that all returned. *)
Lemma execute_tasks_outcome (ts : list Task) :
  forall (context : list string) (lst : string) (log : list Request) (r : outcome string),
    execute_tasks provider ts context lst = (log, r) ->
    (exists e rq, r = Raised e /\ last log = Some rq /\ provider rq = Raised e) \/
    (exists out, r = Returned out /\
                 existsb (fun rq => is_raised (provider rq)) log = false).
Proof.
  induction ts as [| t ts IH]; intros context lst log r Hrun; cbn in Hrun.
  - injection Hrun as <- <-. right. exists lst. split; reflexivity.
  - destruct (provider (request_of t context)) as [out | e] eqn:Ecall.
    + destruct (execute_tasks provider ts (context ++ [out]) out) as [log' r'] eqn:Erest.
      injection Hrun as <- <-.
      destruct (IH _ _ _ _ Erest) as [(e & rq & -> & Hlast & Hrq) | (o & -> & Hnone)].
      * left. exists e, rq. repeat split; [| exact Hrq].
        rewrite last_cons, Hlast. reflexivity.
      * right. exists o. split; [reflexivity |].
        cbn. rewrite Ecall, Hnone. reflexivity.
    + injection Hrun as <- <-. left. exists e, (request_of t context).
      repeat split. exact Ecall.
Qed.

Lemma execute_tasks_one_call_per_task (ts : list Task) :
  forall (context : list string) (lst : string) (log : list Request) (out : string),
    execute_tasks provider ts context lst = (log, Returned out) ->
    map req_agent log = map agent ts.
Proof.
  induction ts as [| t ts IH]; intros context lst log out Hrun; cbn in Hrun.
  - injection Hrun as <- _. reflexivity.
  - destruct (provider (request_of t context)) as [o | e]; [| discriminate].
    destruct (execute_tasks provider ts (context ++ [o]) o) as [log' r'] eqn:Erest.
    injection Hrun as <- ->. cbn. f_equal. eapply IH. exact Erest.
Qed.

Lemma kickoff_failed_raises (crew : Crew) (log : list Request) (r : outcome string) :
  kickoff provider crew = (log, r) ->
  existsb (fun rq => is_raised (provider rq)) log = true ->
  exists e rq, r = Raised e /\ last log = Some rq /\ provider rq = Raised e.
Proof.
  intros Hrun Hfailed.
  destruct (execute_tasks_outcome _ _ _ _ _ Hrun) as [Hraised | (o & _ & Hnone)].
  - exact Hraised.
  - congruence.
Qed.

End Kickoff.

(** C4: a run of either entry point in which a provider call raises
    leaves the system, its report data and its tracker (records and
    totals) as they were before the run, and ends with the exception the
    provider raised. *)
Theorem failed_run_commits_nothing (provider : Provider) (now a b : string)
        (self : ProjectManagementSystem.t) :
  (let r := run_project_planning provider now a b self in
   provider_failed provider r = true ->
   after r = self /\
   report_data (after r) = report_data self /\
   token_tracker (after r) = token_tracker self /\
   exists e rq, result r = Raised e /\ last (calls r) = Some rq /\ provider rq = Raised e) /\
  (let r := analyze_project_status provider now a b self in
   provider_failed provider r = true ->
   after r = self /\
   report_data (after r) = report_data self /\
   token_tracker (after r) = token_tracker self /\
   exists e rq, result r = Raised e /\ last (calls r) = Some rq /\ provider rq = Raised e).
Proof.
  split; cbn zeta; unfold provider_failed.
  - unfold run_project_planning.
    destruct (kickoff provider (planning_crew a b)) as [log kicked] eqn:Ekick.
    destruct kicked as [res | e]; cbn; intros Hfailed.
    + destruct (kickoff_failed_raises _ _ _ _ Ekick Hfailed) as (e & rq & Habs & _).
      discriminate.
    + destruct (kickoff_failed_raises _ _ _ _ Ekick Hfailed) as (e' & rq & Heq & Hlast & Hrq).
      injection Heq as ->. repeat split. exists e', rq. repeat split; assumption.
  - unfold analyze_project_status.
    destruct (kickoff provider (analysis_crew a b)) as [log kicked] eqn:Ekick.
    destruct kicked as [res | e]; cbn; intros Hfailed.
    + destruct (kickoff_failed_raises _ _ _ _ Ekick Hfailed) as (e & rq & Habs & _).
      discriminate.
    + destruct (kickoff_failed_raises _ _ _ _ Ekick Hfailed) as (e' & rq & Heq & Hlast & Hrq).
      injection Heq as ->. repeat split. exists e', rq. repeat split; assumption.
Qed.

Lemma failed_run_commits_nothing_witness :
  let self :=
    after (analyze_project_status Stub.echo "09:00:00" "Week 3" "API docs"
             ProjectManagementSystem.__init__) in
  after (run_project_planning (Stub.failing_for "Task Allocator") "09:05:00"
           "Build a to-do app" "2 devs, 1 designer" self) = self /\
  after (analyze_project_status (Stub.failing_for "Quality Reviewer") "09:06:00"
           "Week 4" "Schema" self) = self.
Proof.
  intros self.
  pose proof (failed_run_commits_nothing (Stub.failing_for "Task Allocator") "09:05:00"
                "Build a to-do app" "2 devs, 1 designer" self) as [Hplan _].
  pose proof (failed_run_commits_nothing (Stub.failing_for "Quality Reviewer") "09:06:00"
                "Week 4" "Schema" self) as [_ Hanalysis].
  split.
  - refine (proj1 (Hplan _)). vm_compute. reflexivity.
  - refine (proj1 (Hanalysis _)). vm_compute. reflexivity.
Defined.

(** ** The calls of the two pipelines *)

Lemma kickoff_planning (provider : Provider) (d t : string) :
  kickoff provider (planning_crew d t) =
  match provider (planner_request d) with
  | Raised e => ([planner_request d], Raised e)
  | Returned plan =>
      ([planner_request d; allocator_request d t plan],
       provider (allocator_request d t plan))
  end.
Proof.
  unfold kickoff, planning_crew. cbn [tasks execute_tasks].
  fold (planner_request d).
  destruct (provider (planner_request d)) as [plan | e]; [| reflexivity].
  cbn [app]. fold (allocator_request d t plan).
  destruct (provider (allocator_request d t plan)); reflexivity.
Qed.

Lemma kickoff_analysis (provider : Provider) (st dl : string) :
  kickoff provider (analysis_crew st dl) =
  match provider (monitor_request st) with
  | Raised e => ([monitor_request st], Raised e)
  | Returned report =>
      ([monitor_request st; reviewer_request dl report],
       provider (reviewer_request dl report))
  end.
Proof.
  unfold kickoff, analysis_crew. cbn [tasks execute_tasks].
  fold (monitor_request st).
  destruct (provider (monitor_request st)) as [report | e]; [| reflexivity].
  cbn [app]. fold (reviewer_request dl report).
  destruct (provider (reviewer_request dl report)); reflexivity.
Qed.

Lemma run_project_planning_calls (provider : Provider) (now d t : string)
      (self : ProjectManagementSystem.t) :
  calls (run_project_planning provider now d t self) =
  match provider (planner_request d) with
  | Raised _ => [planner_request d]
  | Returned plan => [planner_request d; allocator_request d t plan]
  end.
Proof.
  unfold run_project_planning. rewrite kickoff_planning.
  destruct (provider (planner_request d)) as [plan | e]; [| reflexivity].
  destruct (provider (allocator_request d t plan)); reflexivity.
Qed.

Lemma analyze_project_status_calls (provider : Provider) (now st dl : string)
      (self : ProjectManagementSystem.t) :
  calls (analyze_project_status provider now st dl self) =
  match provider (monitor_request st) with
  | Raised _ => [monitor_request st]
  | Returned report => [monitor_request st; reviewer_request dl report]
  end.
Proof.
  unfold analyze_project_status. rewrite kickoff_analysis.
  destruct (provider (monitor_request st)) as [report | e]; [| reflexivity].
  destruct (provider (reviewer_request dl report)); reflexivity.
Qed.

Lemma run_project_planning_returned (provider : Provider) (now d t : string)
      (self : ProjectManagementSystem.t) (res : string) :
  result (run_project_planning provider now d t self) = Returned res ->
  exists plan,
    provider (planner_request d) = Returned plan /\
    provider (allocator_request d t plan) = Returned res.
Proof.
  unfold run_project_planning. rewrite kickoff_planning.
  destruct (provider (planner_request d)) as [plan | e]; [| discriminate].
  destruct (provider (allocator_request d t plan)) as [res' | e] eqn:E2; cbn;
    [| discriminate].
  intros [= ->]. exists plan. split; [reflexivity | exact E2].
Qed.

Lemma analyze_project_status_returned (provider : Provider) (now st dl : string)
      (self : ProjectManagementSystem.t) (res : string) :
  result (analyze_project_status provider now st dl self) = Returned res ->
  exists report,
    provider (monitor_request st) = Returned report /\
    provider (reviewer_request dl report) = Returned res.
Proof.
  unfold analyze_project_status. rewrite kickoff_analysis.
  destruct (provider (monitor_request st)) as [report | e]; [| discriminate].
  destruct (provider (reviewer_request dl report)) as [res' | e] eqn:E2; cbn;
    [| discriminate].
  intros [= ->]. exists report. split; [reflexivity | exact E2].
Qed.

(** ** Ledger growth of a successful run *)

(** C5, as the program has it: a successful run of either entry point
    appends exactly one record to the ledger, whatever the number of
    tasks of the crew; the record is labelled with the operation,
    ["Project Planning"] or ["Status Analysis"], and holds a non-negative
    token count, a quarter (rounded down) of the length of the two
    inputs joined by a space followed by the result. *)
Theorem successful_run_appends_one_record (provider : Provider) (now a b res : string)
        (self : ProjectManagementSystem.t) :
  (let r := run_project_planning provider now a b self in
   result r = Returned res ->
   session_history (token_tracker (after r)) =
     session_history (token_tracker self) ++
       [ {| timestamp := now;
            operation := "Project Planning";
            tokens := len ((a +:+ " " +:+ b) +:+ res) / 4;
            cost := (truediv (len ((a +:+ " " +:+ b) +:+ res) / 4) 1000000 * 9)%float |} ] /\
   0 <= len ((a +:+ " " +:+ b) +:+ res) / 4 /\
   length (session_history (token_tracker (after r))) =
     S (length (session_history (token_tracker self)))) /\
  (let r := analyze_project_status provider now a b self in
   result r = Returned res ->
   session_history (token_tracker (after r)) =
     session_history (token_tracker self) ++
       [ {| timestamp := now;
            operation := "Status Analysis";
            tokens := len ((a +:+ " " +:+ b) +:+ res) / 4;
            cost := (truediv (len ((a +:+ " " +:+ b) +:+ res) / 4) 1000000 * 9)%float |} ] /\
   0 <= len ((a +:+ " " +:+ b) +:+ res) / 4 /\
   length (session_history (token_tracker (after r))) =
     S (length (session_history (token_tracker self)))).
Proof.
  split; cbn zeta; intros Hres.
  - destruct (run_project_planning_cases provider now a b self)
      as [(e & He & _) | (res' & Hr & ->)]; [congruence |].
    assert (res' = res) as -> by congruence.
    cbn. repeat split.
    + apply (estimated_tokens_nonneg ((a +:+ " " +:+ b) +:+ res)).
    + rewrite length_app. cbn. lia.
  - destruct (analyze_project_status_cases provider now a b self)
      as [(e & He & _) | (res' & Hr & ->)]; [congruence |].
    assert (res' = res) as -> by congruence.
    cbn. repeat split.
    + apply (estimated_tokens_nonneg ((a +:+ " " +:+ b) +:+ res)).
    + rewrite length_app. cbn. lia.
Qed.

Lemma successful_run_appends_one_record_witness :
  let r := run_project_planning Stub.echo "12:00:00"
             "Build a to-do app" "2 devs, 1 designer"
             ProjectManagementSystem.__init__ in
  let r' := analyze_project_status Stub.echo "12:05:00" "Week 3" "API docs" (after r) in
  length (session_history (token_tracker (after r))) = 1%nat /\
  length (session_history (token_tracker (after r'))) = 2%nat.
Proof.
  intros r r'.
  pose proof (successful_run_appends_one_record Stub.echo "12:00:00"
                "Build a to-do app" "2 devs, 1 designer" "Task Allocator:466"
                ProjectManagementSystem.__init__) as [Hplan _].
  pose proof (successful_run_appends_one_record Stub.echo "12:05:00"
                "Week 3" "API docs" "Quality Reviewer:369" (after r)) as [_ Hanalysis].
  assert (Hr : result r = Returned "Task Allocator:466") by (vm_compute; reflexivity).
  assert (Hr' : result r' = Returned "Quality Reviewer:369") by (vm_compute; reflexivity).
  destruct (Hplan Hr) as (_ & _ & Hlen).
  destruct (Hanalysis Hr') as (_ & _ & Hlen').
  split.
  - exact Hlen.
  - fold r' in Hlen'. rewrite Hlen'. fold r in Hlen. rewrite Hlen. reflexivity.
Defined.

(** C5, as the claim has it, fails: the planning crew has two tasks and
    both succeed, yet the ledger grows by one record, not two, and the
    record is labelled with the operation, not with an agent's role. *)
Lemma two_stage_run_appends_one_record :
  let self := ProjectManagementSystem.__init__ in
  let r := run_project_planning Stub.echo "12:00:00"
             "Build a to-do app" "2 devs, 1 designer" self in
  result r = Returned "Task Allocator:466" /\
  invoked_roles r = ["Project Planner"; "Task Allocator"] /\
  length (tasks (planning_crew "Build a to-do app" "2 devs, 1 designer")) = 2%nat /\
  map operation (session_history (token_tracker (after r))) = ["Project Planning"] /\
  length (session_history (token_tracker (after r))) <>
    (length (session_history (token_tracker self)) +
     length (tasks (planning_crew "Build a to-do app" "2 devs, 1 designer")))%nat.
Proof.
  vm_compute. repeat split; discriminate.
Qed.

(** ** Who is called, and in what order *)



(** ** What the Allocator is told *)

(** The Allocator's instructions are fixed when the task is built, before
    any provider call: whatever the provider answers, they are the
    template with the caller's project description in the place of the
    project plan. *)
Lemma allocator_instructions_fixed (provider : Provider) (now d t : string)
      (self : ProjectManagementSystem.t) (rq : Request) :
  In rq (calls (run_project_planning provider now d t self)) ->
  role (req_agent rq) = "Task Allocator" ->
  req_instructions rq =
  description
    (ProjectManagementTasks.allocate_tasks ProjectManagementAgents.task_allocator d t).
Proof.
  rewrite run_project_planning_calls.
  destruct (provider (planner_request d)) as [plan | e]; cbn.
  - intros [<- | [<- | []]]; [discriminate | reflexivity].
  - intros [<- | []]; discriminate.
Qed.

(** C7, as the claim has it, fails: in the scenario of the
    specification the echoing provider answers the Planner with
    ["Project Planner:380"]; the instruction text of the allocation task
    was rendered when the crew was built, it reads
    ["Project Plan: Build a to-do app"] and does not hold the Planner's
    output: none is substituted for the placeholder. *)
Lemma allocation_task_is_rendered_from_the_description :
  let d := "Build a to-do app" in
  let t := "2 devs, 1 designer" in
  exists planning_task allocation_task plan,
    tasks (planning_crew d t) = [planning_task; allocation_task] /\
    Stub.echo (request_of planning_task []) = Returned plan /\
    plan = "Project Planner:380" /\
    role (agent allocation_task) = "Task Allocator" /\
    contains (description allocation_task) plan = false /\
    contains (description allocation_task) ("Project Plan: " +:+ d) = true.
Proof.
  cbn zeta.
  exists (ProjectManagementTasks.create_project_plan
            ProjectManagementAgents.project_planner "Build a to-do app"),
         (ProjectManagementTasks.allocate_tasks
            ProjectManagementAgents.task_allocator
            "Build a to-do app" "2 devs, 1 designer"),
         "Project Planner:380".
  vm_compute. repeat split.
Qed.

(** ** Empty inputs *)

(** C8, as the program has it: the entry points do not check their
    inputs; the check is the form's.  A submission with an empty required
    field, or without the button pressed, whatever the fields hold, does
    not reach the entry point: no provider call, nothing displayed,
    nothing raised, the system as it was.  An entry point that is called,
    with whatever strings, calls the provider for its first task. *)
Theorem empty_input_stops_at_the_form (provider : Provider) (now a b : string)
        (button : bool) (system : ProjectManagementSystem.t) :
  let untouched :=
    {| Streamlit.provider_calls := [];
       Streamlit.shown := Streamlit.Idle;
       Streamlit.system_after := system |} in
  Streamlit.status_tab provider now button "" b system = untouched /\
  Streamlit.status_tab provider now button a "" system = untouched /\
  Streamlit.planning_tab provider now button "" b system = untouched /\
  Streamlit.planning_tab provider now button a "" system = untouched /\
  Streamlit.status_tab provider now false a b system = untouched /\
  Streamlit.planning_tab provider now false a b system = untouched /\
  (forall st dl,
      exists rest,
        calls (analyze_project_status provider now st dl system) =
        monitor_request st :: rest) /\
  (forall d t,
      exists rest,
        calls (run_project_planning provider now d t system) =
        planner_request d :: rest).
Proof.
  cbn zeta. repeat apply conj.
  - unfold Streamlit.status_tab. cbn [truthy]. now rewrite andb_false_r.
  - unfold Streamlit.status_tab. cbn [truthy]. now rewrite andb_false_r.
  - unfold Streamlit.planning_tab. cbn [truthy]. now rewrite andb_false_r.
  - unfold Streamlit.planning_tab. cbn [truthy]. now rewrite andb_false_r.
  - reflexivity.
  - reflexivity.
  - intros st dl. rewrite analyze_project_status_calls.
    destruct (provider (monitor_request st)); eexists; reflexivity.
  - intros d t. rewrite run_project_planning_calls.
    destruct (provider (planner_request d)); eexists; reflexivity.
Qed.

(** C8, as the claim has it, fails: called with an empty status, the
    entry point raises nothing; it calls the provider twice, returns the
    Reviewer's text, appends a ledger record and stores the empty status
    in the report data. *)
Lemma empty_status_reaches_the_provider :
  let r := analyze_project_status Stub.echo "12:00:00" "" "API docs"
             ProjectManagementSystem.__init__ in
  result r = Returned "Quality Reviewer:369" /\
  invoked_roles r = ["Progress Monitor"; "Quality Reviewer"] /\
  length (calls r) = 2%nat /\
  map operation (session_history (token_tracker (after r))) = ["Status Analysis"] /\
  report_data (after r) !! "project_status" = Some "".
Proof.
  vm_compute. repeat split.
Qed.

(** ** Content of the report *)

Lemma overview_heading_iff (report_date : string) (project_data : gmap string string)
      (token_usage : Summary) :
  In (Paragraph "📋 Project Overview" heading_style)
     (story_plan report_date project_data token_usage) <->
  is_Some (project_data !! "project_description").
Proof.
  unfold story_plan. rewrite !in_app_iff.
  assert (H0 : ~ In (Paragraph "📋 Project Overview" heading_style)
                 [ Paragraph "🚀 Project Management Report" title_style; Spacer 1 20;
                   Paragraph ("<b>Generated:</b> " +:+ report_date) normal_style;
                   Spacer 1 20 ]) by absent_from_piece.
  split.
  - intros [Hin | [Hin | [Hin | [Hin | [Hin | [Hin | [Hin | Hin]]]]]]].
    + destruct (H0 Hin).
    + destruct (project_data !! "project_description"); [eauto | destruct Hin].
    + exfalso; revert Hin. absent_from_section project_data "team_info".
    + exfalso; revert Hin. absent_from_section project_data "project_plan".
    + exfalso; revert Hin. absent_from_section project_data "status_analysis".
    + exfalso; revert Hin. absent_from_piece.
    + exfalso; revert Hin. destruct (s_history token_usage); absent_from_piece.
    + exfalso; revert Hin. absent_from_piece.
  - intros [v ->]. right. left. left. reflexivity.
Qed.

Lemma plan_heading_iff (report_date : string) (project_data : gmap string string)
      (token_usage : Summary) :
  In (Paragraph "🎯 Project Plan" heading_style)
     (story_plan report_date project_data token_usage) <->
  is_Some (project_data !! "project_plan").
Proof.
  unfold story_plan. rewrite !in_app_iff.
  split.
  - intros [Hin | [Hin | [Hin | [Hin | [Hin | [Hin | [Hin | Hin]]]]]]].
    + exfalso; revert Hin. absent_from_piece.
    + exfalso; revert Hin. absent_from_section project_data "project_description".
    + exfalso; revert Hin. absent_from_section project_data "team_info".
    + destruct (project_data !! "project_plan"); [eauto | destruct Hin].
    + exfalso; revert Hin. absent_from_section project_data "status_analysis".
    + exfalso; revert Hin. absent_from_piece.
    + exfalso; revert Hin. destruct (s_history token_usage); absent_from_piece.
    + exfalso; revert Hin. absent_from_piece.
  - intros [v ->]. do 3 right. left. left. reflexivity.
Qed.

Lemma analysis_heading_iff (report_date : string) (project_data : gmap string string)
      (token_usage : Summary) :
  In (Paragraph "📊 Status Analysis" heading_style)
     (story_plan report_date project_data token_usage) <->
  is_Some (project_data !! "status_analysis").
Proof.
  unfold story_plan. rewrite !in_app_iff.
  split.
  - intros [Hin | [Hin | [Hin | [Hin | [Hin | [Hin | [Hin | Hin]]]]]]].
    + exfalso; revert Hin. absent_from_piece.
    + exfalso; revert Hin. absent_from_section project_data "project_description".
    + exfalso; revert Hin. absent_from_section project_data "team_info".
    + exfalso; revert Hin. absent_from_section project_data "project_plan".
    + destruct (project_data !! "status_analysis"); [eauto | destruct Hin].
    + exfalso; revert Hin. absent_from_piece.
    + exfalso; revert Hin. destruct (s_history token_usage); absent_from_piece.
    + exfalso; revert Hin. absent_from_piece.
  - intros [v ->]. do 4 right. left. left. reflexivity.
Qed.

(** The number of flowables: nine that are always there, and a fixed
    number more for each piece that is shown. *)
Lemma story_length (report_date : string) (project_data : gmap string string)
      (token_usage : Summary) :
  length (story_plan report_date project_data token_usage) =
  (9 + (if project_data !! "project_description" is Some _ then 2 else 0)
     + (if project_data !! "team_info" is Some _ then 2 else 0)
     + (if project_data !! "project_plan" is Some _ then 3 else 0)
     + (if project_data !! "status_analysis" is Some _ then 3 else 0)
     + (match s_history token_usage with [] => 0 | _ :: _ => 2 end))%nat.
Proof.
  unfold story_plan. rewrite !length_app.
  destruct (project_data !! "project_description");
    destruct (project_data !! "team_info");
    destruct (project_data !! "project_plan");
    destruct (project_data !! "status_analysis");
    destruct (s_history token_usage); reflexivity.
Qed.

(** C9, as the program has it: generating the report either raises, with
    the error of the markup parser on a text it was to show, or yields a
    story determined by the report data, the ledger summary and the date
    of generation.  Of the report data the story shows the four sections
    [project_description], [team_info], [project_plan] and
    [status_analysis], each exactly when it is populated, with nothing in
    the place of an absent one; no other entry of the report data,
    [project_status] and [deliverables] included, has any effect on it.
    The table of the ledger totals is always there.  When the parser
    accepts every text, the report is built. *)
Theorem report_shows_four_sections_and_ledger (parse : MarkupParser)
        (report_date : string) (project_data : gmap string string)
        (token_usage : Summary) :
  (forall story,
      generate_project_report parse report_date project_data token_usage
        = Returned story ->
      (In (Paragraph "📋 Project Overview" heading_style) story <->
       is_Some (project_data !! "project_description")) /\
      (In (Paragraph "🎯 Project Plan" heading_style) story <->
       is_Some (project_data !! "project_plan")) /\
      (In (Paragraph "📊 Status Analysis" heading_style) story <->
       is_Some (project_data !! "status_analysis")) /\
      (forall v, project_data !! "project_description" = Some v ->
                 In (Paragraph ("<b>Description:</b> " +:+ v) normal_style) story) /\
      (forall v, project_data !! "team_info" = Some v ->
                 In (Paragraph ("<b>Team:</b> " +:+ v) normal_style) story) /\
      (forall v, project_data !! "project_plan" = Some v ->
                 In (Paragraph (replace_newline "<br/>" v) normal_style) story) /\
      (forall v, project_data !! "status_analysis" = Some v ->
                 In (Paragraph (replace_newline "<br/>" v) normal_style) story) /\
      In (Table
            [ [ CText "Metric"; CText "Value" ];
              [ CText "Total Tokens Used"; CGrouped (s_total_tokens token_usage) ];
              [ CText "Estimated Cost"; CDollars (s_total_cost token_usage) ];
              [ CText "Operations Performed"; CInt (s_operations token_usage) ] ]
            [ 2; 2 ]) story /\
      length story =
        (9 + (if project_data !! "project_description" is Some _ then 2 else 0)
           + (if project_data !! "team_info" is Some _ then 2 else 0)
           + (if project_data !! "project_plan" is Some _ then 3 else 0)
           + (if project_data !! "status_analysis" is Some _ then 3 else 0)
           + (match s_history token_usage with [] => 0 | _ :: _ => 2 end))%nat /\
      (forall other : gmap string string,
          other !! "project_description" = project_data !! "project_description" ->
          other !! "team_info" = project_data !! "team_info" ->
          other !! "project_plan" = project_data !! "project_plan" ->
          other !! "status_analysis" = project_data !! "status_analysis" ->
          generate_project_report parse report_date other token_usage
            = Returned story)) /\
  (forall e,
      generate_project_report parse report_date project_data token_usage = Raised e ->
      exists text,
        In text (paragraph_texts (story_plan report_date project_data token_usage)) /\
        parse text = Some e) /\
  ((forall text, parse text = None) ->
   exists story,
     generate_project_report parse report_date project_data token_usage
       = Returned story).
Proof.
  split; [| split].
  - intros story Hgen. pose proof Hgen as Hgen'.
    apply generate_returned in Hgen' as [-> _].
    split; [apply overview_heading_iff |].
    split; [apply plan_heading_iff |].
    split; [apply analysis_heading_iff |].
    repeat apply conj.
    + intros v Hv. unfold story_plan. rewrite Hv, !in_app_iff.
      right. left. right. left. reflexivity.
    + intros v Hv. unfold story_plan. rewrite Hv, !in_app_iff.
      do 2 right. left. left. reflexivity.
    + intros v Hv. unfold story_plan. rewrite Hv, !in_app_iff.
      do 3 right. left. right. left. reflexivity.
    + intros v Hv. unfold story_plan. rewrite Hv, !in_app_iff.
      do 4 right. left. right. left. reflexivity.
    + unfold story_plan. rewrite !in_app_iff.
      do 5 right. left. right. left. reflexivity.
    + apply story_length.
    + intros other H1 H2 H3 H4.
      assert (Hsame : story_plan report_date other token_usage =
                      story_plan report_date project_data token_usage).
      { unfold story_plan. rewrite H1, H2, H3, H4. reflexivity. }
      rewrite generate_project_report_eq, Hsame, <- generate_project_report_eq.
      exact Hgen.
  - apply generate_raised.
  - intros Hok. eexists. apply generate_accepted. intros text _. apply Hok.
Qed.

Lemma report_shows_four_sections_and_ledger_witness :
  let s :=
    after (run_project_planning Stub.echo "12:00:00"
             "Build a to-do app" "2 devs, 1 designer"
             ProjectManagementSystem.__init__) in
  exists story,
    generate_pdf_report Stub.markup "November 03, 2026 at 10:00 AM" s
      = Returned story /\
    In (Paragraph "<b>Description:</b> Build a to-do app" normal_style) story /\
    In (Paragraph "<b>Team:</b> 2 devs, 1 designer" normal_style) story /\
    In (Paragraph "Task Allocator:466" normal_style) story /\
    generate_project_report Stub.markup "November 03, 2026 at 10:00 AM"
      (<["project_status" := "Week 3"]> (report_data s))
      (get_summary (token_tracker s)) = Returned story.
Proof.
  intros s.
  pose proof (report_shows_four_sections_and_ledger Stub.markup
                "November 03, 2026 at 10:00 AM"
                (report_data s) (get_summary (token_tracker s)))
    as (Hbuilt & _ & _).
  assert (Hgen : generate_pdf_report Stub.markup "November 03, 2026 at 10:00 AM" s =
                 Returned (story_plan "November 03, 2026 at 10:00 AM"
                             (report_data s) (get_summary (token_tracker s))))
    by (vm_compute; reflexivity).
  destruct (Hbuilt _ Hgen) as (_ & _ & _ & Hd & Ht & Hp & _ & _ & _ & Hframe).
  eexists. split; [exact Hgen |].
  repeat apply conj.
  - refine (Hd "Build a to-do app" _). vm_compute. reflexivity.
  - refine (Ht "2 devs, 1 designer" _). vm_compute. reflexivity.
  - refine (Hp "Task Allocator:466" _). vm_compute. reflexivity.
  - refine (Hframe _ _ _ _ _); vm_compute; reflexivity.
Defined.

(** C9, as the claim has it, fails: after a status analysis the report
    data holds the status and the deliverables, and the story that is
    built shows neither; it shows the analysis.  And the story changes
    with the date of generation, the report data and the summary being
    the same. *)
Lemma report_leaves_out_status_and_deliverables :
  let s :=
    after (analyze_project_status Stub.echo "12:00:00"
             "Week 3: backend 70% complete" "API documentation"
             ProjectManagementSystem.__init__) in
  exists story,
    generate_pdf_report Stub.markup "November 03, 2026 at 10:00 AM" s
      = Returned story /\
    report_data s !! "project_status" = Some "Week 3: backend 70% complete" /\
    report_data s !! "deliverables" = Some "API documentation" /\
    shows story "Week 3: backend 70% complete" = false /\
    shows story "API documentation" = false /\
    report_data s !! "status_analysis" = Some "Quality Reviewer:378" /\
    shows story "Quality Reviewer:378" = true /\
    generate_pdf_report Stub.markup "November 03, 2026 at 10:01 AM" s
      <> Returned story.
Proof.
  cbn zeta. eexists. split; [vm_compute; reflexivity |].
  vm_compute. repeat split. intros Habs. discriminate Habs.
Qed.

(** ** Which sections a run writes *)

(** C10: a successful planning run sets [project_description],
    [team_info] and [project_plan] in the report data and leaves every
    other key, [project_status], [deliverables] and [status_analysis]
    among them, as it was; a successful status analysis sets
    [project_status], [deliverables] and [status_analysis] and leaves
    every other key, the three planning sections among them, as it
    was. *)
Theorem successful_run_writes_its_own_sections (provider : Provider)
        (now a b res : string) (self : ProjectManagementSystem.t) :
  (let r := run_project_planning provider now a b self in
   result r = Returned res ->
   report_data (after r) !! "project_description" = Some a /\
   report_data (after r) !! "team_info" = Some b /\
   report_data (after r) !! "project_plan" = Some res /\
   (forall k : string,
       k <> "project_description" -> k <> "team_info" -> k <> "project_plan" ->
       report_data (after r) !! k = report_data self !! k) /\
   report_data (after r) !! "project_status" = report_data self !! "project_status" /\
   report_data (after r) !! "deliverables" = report_data self !! "deliverables" /\
   report_data (after r) !! "status_analysis" = report_data self !! "status_analysis") /\
  (let r := analyze_project_status provider now a b self in
   result r = Returned res ->
   report_data (after r) !! "project_status" = Some a /\
   report_data (after r) !! "deliverables" = Some b /\
   report_data (after r) !! "status_analysis" = Some res /\
   (forall k : string,
       k <> "project_status" -> k <> "deliverables" -> k <> "status_analysis" ->
       report_data (after r) !! k = report_data self !! k) /\
   report_data (after r) !! "project_description" =
     report_data self !! "project_description" /\
   report_data (after r) !! "team_info" = report_data self !! "team_info" /\
   report_data (after r) !! "project_plan" = report_data self !! "project_plan").
Proof.
  split; cbn zeta; intros Hres.
  - destruct (run_project_planning_cases provider now a b self)
      as [(e & He & _) | (res' & Hr & ->)]; [congruence |].
    assert (res' = res) as -> by congruence.
    cbn [report_data].
    assert (Hframe : forall k : string,
               k <> "project_description" -> k <> "team_info" -> k <> "project_plan" ->
               <["project_plan" := res]>
                 (<["team_info" := b]>
                    (<["project_description" := a]> (report_data self))) !! k =
               report_data self !! k).
    { intros k H1 H2 H3. rewrite !lookup_insert_ne by congruence. reflexivity. }
    repeat apply conj.
    + rewrite !lookup_insert_ne by discriminate. apply lookup_insert_eq.
    + rewrite lookup_insert_ne by discriminate. apply lookup_insert_eq.
    + apply lookup_insert_eq.
    + exact Hframe.
    + apply Hframe; discriminate.
    + apply Hframe; discriminate.
    + apply Hframe; discriminate.
  - destruct (analyze_project_status_cases provider now a b self)
      as [(e & He & _) | (res' & Hr & ->)]; [congruence |].
    assert (res' = res) as -> by congruence.
    cbn [report_data].
    assert (Hframe : forall k : string,
               k <> "project_status" -> k <> "deliverables" -> k <> "status_analysis" ->
               <["status_analysis" := res]>
                 (<["deliverables" := b]>
                    (<["project_status" := a]> (report_data self))) !! k =
               report_data self !! k).
    { intros k H1 H2 H3. rewrite !lookup_insert_ne by congruence. reflexivity. }
    repeat apply conj.
    + rewrite !lookup_insert_ne by discriminate. apply lookup_insert_eq.
    + rewrite lookup_insert_ne by discriminate. apply lookup_insert_eq.
    + apply lookup_insert_eq.
    + exact Hframe.
    + apply Hframe; discriminate.
    + apply Hframe; discriminate.
    + apply Hframe; discriminate.
Qed.

Lemma successful_run_writes_its_own_sections_witness :
  let s1 :=
    after (analyze_project_status Stub.echo "12:00:00" "Week 3" "API docs"
             ProjectManagementSystem.__init__) in
  let r := run_project_planning Stub.echo "12:05:00"
             "Build a to-do app" "2 devs, 1 designer" s1 in
  let r' := analyze_project_status Stub.echo "12:10:00" "Week 4" "Schema" (after r) in
  report_data (after r) !! "status_analysis" = report_data s1 !! "status_analysis" /\
  report_data (after r') !! "project_plan" = report_data (after r) !! "project_plan".
Proof.
  intros s1 r r'.
  pose proof (successful_run_writes_its_own_sections Stub.echo "12:05:00"
                "Build a to-do app" "2 devs, 1 designer" "Task Allocator:466" s1)
    as [Hplan _].
  pose proof (successful_run_writes_its_own_sections Stub.echo "12:10:00"
                "Week 4" "Schema" "Quality Reviewer:367" (after r))
    as [_ Hanalysis].
  assert (Hr : result r = Returned "Task Allocator:466") by (vm_compute; reflexivity).
  assert (Hr' : result r' = Returned "Quality Reviewer:367") by (vm_compute; reflexivity).
  split.
  - exact (proj2 (proj2 (proj2 (proj2 (proj2 (proj2 (Hplan Hr))))))).
  - exact (proj2 (proj2 (proj2 (proj2 (proj2 (proj2 (Hanalysis Hr'))))))).
Defined.

Lemma recent_records_are_the_last_appended_witness :
  let six :=
    map (fun n : nat =>
           {| Session.at_time := "12:00:0" +:+ str_of_nat n;
              Session.tokens_used := Z.of_nat n;
              Session.cost_ := 0%float;
              Session.label := "Project Planning" |})
        [1; 2; 3; 4; 5; 6]%nat in
  let tr := Session.appends six in
  length (slice_last 5 (session_history tr)) = 5%nat /\
  map tokens (f_recent (format_summary tr)) = [2; 3; 4; 5; 6] /\
  slice_last 10 (session_history tr) = session_history tr /\
  exists story,
    generate_project_report Stub.markup "November 03, 2026 at 10:00 AM" ∅
      (get_summary tr) = Returned story /\
    In (Table
          ([ CText "Time"; CText "Operation"; CText "Tokens"; CText "Cost" ]
             :: map (fun item =>
                       [ CText (timestamp item); CText (operation item);
                         CInt (tokens item); CDollars (cost item) ])
                    (session_history tr))
          [ 1; 2; 1; 1 ]) story.
Proof.
  intros six tr.
  pose proof (recent_records_are_the_last_appended tr Stub.markup
                "November 03, 2026 at 10:00 AM" ∅)
    as (_ & Hmany & Hfew & Hfive & Hreport & _).
  assert (Hall : slice_last 10 (session_history tr) = session_history tr).
  { refine (Hfew 10%nat _). vm_compute. lia. }
  assert (Hgen : generate_project_report Stub.markup "November 03, 2026 at 10:00 AM" ∅
                   (get_summary tr) =
                 Returned (story_plan "November 03, 2026 at 10:00 AM" ∅ (get_summary tr)))
    by (vm_compute; reflexivity).
  split; [refine (proj1 (Hmany 5%nat _)); vm_compute; lia |].
  split; [rewrite Hfive; vm_compute; reflexivity |].
  split; [exact Hall |].
  eexists. split; [exact Hgen |].
  apply (Hreport _ _ Hgen). split; [vm_compute; discriminate |].
  rewrite Hall. reflexivity.
Defined.

(** * Further properties of the code *)

(** ** The entry points and the session *)

Lemma run_project_planning_unfold (provider : Provider) (now d t : string)
      (self : ProjectManagementSystem.t) :
  run_project_planning provider now d t self =
  {| calls := fst (kickoff provider (planning_crew d t));
     result := snd (kickoff provider (planning_crew d t));
     after :=
       match snd (kickoff provider (planning_crew d t)) with
       | Raised _ => self
       | Returned res =>
           {| token_tracker :=
                add_usage now (len ((d +:+ " " +:+ t) +:+ res) / 4)
                  (truediv (len ((d +:+ " " +:+ t) +:+ res) / 4) 1000000 * 9)%float
                  "Project Planning" (token_tracker self);
              report_data :=
                <["project_plan" := res]>
                  (<["team_info" := t]>
                     (<["project_description" := d]> (report_data self))) |}
       end |}.
Proof.
  unfold run_project_planning.
  destruct (kickoff provider (planning_crew d t)) as [log [res | e]]; reflexivity.
Qed.

Lemma analyze_project_status_unfold (provider : Provider) (now st dl : string)
      (self : ProjectManagementSystem.t) :
  analyze_project_status provider now st dl self =
  {| calls := fst (kickoff provider (analysis_crew st dl));
     result := snd (kickoff provider (analysis_crew st dl));
     after :=
       match snd (kickoff provider (analysis_crew st dl)) with
       | Raised _ => self
       | Returned res =>
           {| token_tracker :=
                add_usage now (len ((st +:+ " " +:+ dl) +:+ res) / 4)
                  (truediv (len ((st +:+ " " +:+ dl) +:+ res) / 4) 1000000 * 9)%float
                  "Status Analysis" (token_tracker self);
              report_data :=
                <["status_analysis" := res]>
                  (<["deliverables" := dl]>
                     (<["project_status" := st]> (report_data self))) |}
       end |}.
Proof.
  unfold analyze_project_status.
  destruct (kickoff provider (analysis_crew st dl)) as [log [res | e]]; reflexivity.
Qed.

(** Neither entry point reads the session: the requests it makes and
    what it returns or raises are the same from any state of the system
    and at any time of day.  Nothing of an earlier run, neither its plan
    nor its analysis, is passed on to a later one. *)
Theorem runs_do_not_read_the_session (provider : Provider) (now1 now2 a b : string)
        (s1 s2 : ProjectManagementSystem.t) :
  calls (run_project_planning provider now1 a b s1) =
    calls (run_project_planning provider now2 a b s2) /\
  result (run_project_planning provider now1 a b s1) =
    result (run_project_planning provider now2 a b s2) /\
  calls (analyze_project_status provider now1 a b s1) =
    calls (analyze_project_status provider now2 a b s2) /\
  result (analyze_project_status provider now1 a b s1) =
    result (analyze_project_status provider now2 a b s2).
Proof.
  rewrite !run_project_planning_unfold, !analyze_project_status_unfold.
  repeat split.
Qed.

(** ** What the ledger and the report data record *)

Lemma apply_op_labels (s : ProjectManagementSystem.t) (o : Session.op) :
  History.labels (Session.apply_op s o) =
  History.labels s ++ match History.label_of o with Some l => [l] | None => [] end.
Proof.
  unfold History.labels.
  destruct o as [p now d t | p now st dl | | |]; cbn [Session.apply_op History.label_of];
    try (now rewrite app_nil_r).
  - rewrite run_project_planning_unfold. cbn [after].
    destruct (snd (kickoff p (planning_crew d t))); cbn.
    + now rewrite map_app.
    + now rewrite app_nil_r.
  - rewrite analyze_project_status_unfold. cbn [after].
    destruct (snd (kickoff p (analysis_crew st dl))); cbn.
    + now rewrite map_app.
    + now rewrite app_nil_r.
Qed.

Lemma fold_ops_labels (os : list Session.op) (s : ProjectManagementSystem.t) :
  History.labels (fold_left Session.apply_op os s) =
  History.labels s ++ omap History.label_of os.
Proof.
  revert s. induction os as [| o os IH]; intros s; cbn [fold_left].
  - cbn. now rewrite app_nil_r.
  - rewrite IH, apply_op_labels. cbn.
    destruct (History.label_of o); cbn; now rewrite <- app_assoc.
Qed.

(** The labels of the ledger are those of the operations of the session
    that returned, in the order they were made: a run that raised, a
    report or a summary leaves no record.  The count of operations of the
    summary is the number of runs that returned. *)
Theorem ledger_lists_the_runs_that_returned (os : list Session.op) :
  History.labels (Session.run_ops os) = omap History.label_of os /\
  s_operations (get_summary (token_tracker (Session.run_ops os))) =
    Z.of_nat (length (omap History.label_of os)).
Proof.
  assert (Hl : History.labels (Session.run_ops os) = omap History.label_of os).
  { unfold Session.run_ops. rewrite fold_ops_labels. reflexivity. }
  split; [exact Hl |].
  cbn [get_summary s_operations]. rewrite <- Hl. unfold History.labels.
  now rewrite length_map.
Qed.

Lemma add_usage_well_formed (now : string) (n : Z) (c : float) (o : string)
      (tr : TokenUsageTracker.t) :
  0 <= n -> o = "Project Planning" \/ o = "Status Analysis" ->
  History.ledger_well_formed tr ->
  History.ledger_well_formed (add_usage now n c o tr).
Proof.
  intros Hn Ho Hwf. unfold History.ledger_well_formed, add_usage; cbn.
  apply Forall_app. split; [exact Hwf |].
  constructor; [| constructor]. cbn. split; assumption.
Qed.

Lemma apply_op_well_formed (s : ProjectManagementSystem.t) (o : Session.op) :
  History.ledger_well_formed (token_tracker s) ->
  History.ledger_well_formed (token_tracker (Session.apply_op s o)).
Proof.
  intros Hwf. destruct o as [p now d t | p now st dl | | |]; cbn [Session.apply_op];
    try exact Hwf.
  - rewrite run_project_planning_unfold. cbn [after].
    destruct (snd (kickoff p (planning_crew d t))) as [res | e]; [| exact Hwf].
    cbn [token_tracker]. apply add_usage_well_formed; [| left; reflexivity | exact Hwf].
    apply Z.div_pos; [apply len_nonneg | lia].
  - rewrite analyze_project_status_unfold. cbn [after].
    destruct (snd (kickoff p (analysis_crew st dl))) as [res | e]; [| exact Hwf].
    cbn [token_tracker]. apply add_usage_well_formed; [| right; reflexivity | exact Hwf].
    apply Z.div_pos; [apply len_nonneg | lia].
Qed.

Lemma apply_op_total_tokens (s : ProjectManagementSystem.t) (o : Session.op) :
  total_tokens (token_tracker s) <= total_tokens (token_tracker (Session.apply_op s o)).
Proof.
  destruct o as [p now d t | p now st dl | | |]; cbn [Session.apply_op]; try lia.
  - rewrite run_project_planning_unfold. cbn [after].
    destruct (snd (kickoff p (planning_crew d t))) as [res | e]; [| lia].
    cbn [token_tracker add_usage total_tokens].
    pose proof (len_nonneg ((d +:+ " " +:+ t) +:+ res)).
    assert (0 <= len ((d +:+ " " +:+ t) +:+ res) / 4) by (apply Z.div_pos; lia). lia.
  - rewrite analyze_project_status_unfold. cbn [after].
    destruct (snd (kickoff p (analysis_crew st dl))) as [res | e]; [| lia].
    cbn [token_tracker add_usage total_tokens].
    pose proof (len_nonneg ((st +:+ " " +:+ dl) +:+ res)).
    assert (0 <= len ((st +:+ " " +:+ dl) +:+ res) / 4) by (apply Z.div_pos; lia). lia.
Qed.

Lemma fold_ops_well_formed (os : list Session.op) (s : ProjectManagementSystem.t) :
  History.ledger_well_formed (token_tracker s) ->
  History.ledger_well_formed (token_tracker (fold_left Session.apply_op os s)).
Proof.
  revert s. induction os as [| o os IH]; intros s Hwf; cbn.
  - exact Hwf.
  - apply IH. now apply apply_op_well_formed.
Qed.

Lemma fold_ops_total_tokens (os : list Session.op) (s : ProjectManagementSystem.t) :
  total_tokens (token_tracker s) <=
  total_tokens (token_tracker (fold_left Session.apply_op os s)).
Proof.
  revert s. induction os as [| o os IH]; intros s; cbn.
  - lia.
  - pose proof (apply_op_total_tokens s o). pose proof (IH (Session.apply_op s o)). lia.
Qed.

(** In every state a session can reach, each record of the ledger counts
    a non-negative number of tokens under one of the two labels
    ["Project Planning"] and ["Status Analysis"], the total of tokens is
    non-negative, and no later operation makes it smaller. *)
Theorem session_ledger_is_well_formed (os later : list Session.op) :
  let s := Session.run_ops os in
  History.ledger_well_formed (token_tracker s) /\
  0 <= total_tokens (token_tracker s) /\
  total_tokens (token_tracker s) <=
    total_tokens (token_tracker (fold_left Session.apply_op later s)).
Proof.
  cbn zeta. repeat apply conj.
  - apply fold_ops_well_formed. constructor.
  - apply (fold_ops_total_tokens os ProjectManagementSystem.__init__).
  - apply fold_ops_total_tokens.
Qed.

Lemma fresh_report_matches_ledger :
  History.report_matches_ledger ProjectManagementSystem.__init__.
Proof.
  unfold History.report_matches_ledger, History.labels; cbn.
  repeat apply conj.
  - intros k [v Hv]. rewrite lookup_empty in Hv. discriminate.
  - intros k _. rewrite lookup_empty. split; [intros [v Hv]; discriminate | intros []].
  - intros k _. rewrite lookup_empty. split; [intros [v Hv]; discriminate | intros []].
Qed.

Lemma planning_keeps_report_matching (now d t res : string) (n : Z) (c : float)
      (s : ProjectManagementSystem.t) :
  History.report_matches_ledger s ->
  History.report_matches_ledger
    {| token_tracker := add_usage now n c "Project Planning" (token_tracker s);
       report_data :=
         <["project_plan" := res]>
           (<["team_info" := t]> (<["project_description" := d]> (report_data s))) |}.
Proof.
  intros (Hdom & Hplan & Hana).
  unfold History.report_matches_ledger, History.labels in *.
  cbn [report_data token_tracker add_usage session_history].
  rewrite map_app. cbn [map operation].
  repeat apply conj.
  - intros k. rewrite !lookup_insert.
    repeat case_decide; subst; first [apply Hdom | cbn; tauto].
  - intros k Hk. rewrite in_app_iff. split; [intros _; right; left; reflexivity |].
    intros _. cbn in Hk. destruct Hk as [<- | [<- | [<- | []]]];
      rewrite !lookup_insert; repeat case_decide; try congruence; eauto.
  - intros k Hk. rewrite in_app_iff.
    assert (Hsame : <["project_plan" := res]>
                      (<["team_info" := t]>
                         (<["project_description" := d]> (report_data s))) !! k =
                    report_data s !! k).
    { cbn in Hk. destruct Hk as [<- | [<- | [<- | []]]];
        rewrite !lookup_insert_ne by discriminate; reflexivity. }
    rewrite Hsame, (Hana k Hk). cbn. intuition discriminate.
Qed.

Lemma analysis_keeps_report_matching (now st dl res : string) (n : Z) (c : float)
      (s : ProjectManagementSystem.t) :
  History.report_matches_ledger s ->
  History.report_matches_ledger
    {| token_tracker := add_usage now n c "Status Analysis" (token_tracker s);
       report_data :=
         <["status_analysis" := res]>
           (<["deliverables" := dl]> (<["project_status" := st]> (report_data s))) |}.
Proof.
  intros (Hdom & Hplan & Hana).
  unfold History.report_matches_ledger, History.labels in *.
  cbn [report_data token_tracker add_usage session_history].
  rewrite map_app. cbn [map operation].
  repeat apply conj.
  - intros k. rewrite !lookup_insert.
    repeat case_decide; subst; first [apply Hdom | cbn; tauto].
  - intros k Hk. rewrite in_app_iff.
    assert (Hsame : <["status_analysis" := res]>
                      (<["deliverables" := dl]>
                         (<["project_status" := st]> (report_data s))) !! k =
                    report_data s !! k).
    { cbn in Hk. destruct Hk as [<- | [<- | [<- | []]]];
        rewrite !lookup_insert_ne by discriminate; reflexivity. }
    rewrite Hsame, (Hplan k Hk). cbn. intuition discriminate.
  - intros k Hk. rewrite in_app_iff. split; [intros _; right; left; reflexivity |].
    intros _. cbn in Hk. destruct Hk as [<- | [<- | [<- | []]]];
      rewrite !lookup_insert; repeat case_decide; try congruence; eauto.
Qed.

Lemma apply_op_report_matches (s : ProjectManagementSystem.t) (o : Session.op) :
  History.report_matches_ledger s ->
  History.report_matches_ledger (Session.apply_op s o).
Proof.
  intros Hok. destruct o as [p now d t | p now st dl | | |]; cbn [Session.apply_op];
    try exact Hok.
  - rewrite run_project_planning_unfold. cbn [after].
    destruct (snd (kickoff p (planning_crew d t))) as [res | e]; [| exact Hok].
    now apply planning_keeps_report_matching.
  - rewrite analyze_project_status_unfold. cbn [after].
    destruct (snd (kickoff p (analysis_crew st dl))) as [res | e]; [| exact Hok].
    now apply analysis_keeps_report_matching.
Qed.

Lemma fold_ops_report_matches (os : list Session.op) (s : ProjectManagementSystem.t) :
  History.report_matches_ledger s ->
  History.report_matches_ledger (fold_left Session.apply_op os s).
Proof.
  revert s. induction os as [| o os IH]; intros s Hok; cbn.
  - exact Hok.
  - apply IH. now apply apply_op_report_matches.
Qed.

Lemma matching_report_empty_iff (s : ProjectManagementSystem.t) :
  History.report_matches_ledger s ->
  History.ledger_well_formed (token_tracker s) ->
  (report_data s = ∅ <-> session_history (token_tracker s) = []).
Proof.
  intros (Hdom & Hplan & Hana) Hwf. split.
  - intros Hempty.
    destruct (session_history (token_tracker s)) as [| r h] eqn:Eh; [reflexivity |].
    exfalso. unfold History.ledger_well_formed in Hwf. rewrite Eh in Hwf.
    apply Forall_cons in Hwf as [[_ Hop] _].
    unfold History.labels in Hplan, Hana. rewrite Eh in Hplan, Hana. cbn in Hplan, Hana.
    destruct Hop as [Hop | Hop].
    + destruct (proj2 (Hplan "project_plan" ltac:(cbn; tauto))) as [v Hv]; [now left |].
      rewrite Hempty, lookup_empty in Hv. discriminate.
    + destruct (proj2 (Hana "status_analysis" ltac:(cbn; tauto))) as [v Hv]; [now left |].
      rewrite Hempty, lookup_empty in Hv. discriminate.
  - intros Hnil. apply map_empty. intros k.
    destruct (report_data s !! k) as [v |] eqn:Ek; [| reflexivity].
    exfalso. unfold History.labels in Hplan, Hana. rewrite Hnil in Hplan, Hana.
    assert (Hin : In k (History.planning_keys ++ History.analysis_keys))
      by (apply Hdom; eauto).
    apply in_app_iff in Hin as [Hin | Hin].
    + apply (proj1 (Hplan k Hin)). eauto.
    + apply (proj1 (Hana k Hin)). eauto.
Qed.

(** In every state a session can reach, the report data holds no key
    but the six the two entry points write; the three planning sections
    are there exactly when the ledger has a ["Project Planning"] record,
    the three analysis sections exactly when it has a ["Status Analysis"]
    record; and the report data is empty exactly when the ledger is. *)
Theorem report_data_follows_the_ledger (os : list Session.op) :
  let s := Session.run_ops os in
  History.report_matches_ledger s /\
  (report_data s = ∅ <-> session_history (token_tracker s) = []) /\
  (is_Some (report_data s !! "project_plan") <->
   is_Some (report_data s !! "project_description") /\
   is_Some (report_data s !! "team_info")) /\
  (is_Some (report_data s !! "status_analysis") <->
   is_Some (report_data s !! "project_status") /\
   is_Some (report_data s !! "deliverables")).
Proof.
  cbn zeta.
  assert (Hok : History.report_matches_ledger (Session.run_ops os))
    by (apply fold_ops_report_matches, fresh_report_matches_ledger).
  assert (Hwf : History.ledger_well_formed (token_tracker (Session.run_ops os)))
    by (apply fold_ops_well_formed; constructor).
  split; [exact Hok |].
  split; [now apply matching_report_empty_iff |].
  destruct Hok as (_ & Hplan & Hana).
  pose proof (Hplan "project_plan" ltac:(cbn; tauto)) as H1.
  pose proof (Hplan "project_description" ltac:(cbn; tauto)) as H2.
  pose proof (Hplan "team_info" ltac:(cbn; tauto)) as H3.
  pose proof (Hana "status_analysis" ltac:(cbn; tauto)) as H4.
  pose proof (Hana "project_status" ltac:(cbn; tauto)) as H5.
  pose proof (Hana "deliverables" ltac:(cbn; tauto)) as H6.
  tauto.
Qed.

(** ** How runs compose *)

(** A later successful run of an entry point overwrites the sections an
    earlier run of the same entry point wrote, whether that one returned
    or raised: the report data is what the later run alone would have
    left.  No trace of the superseded values stays in the report data. *)
Theorem later_run_overwrites_the_earlier (p1 p2 : Provider)
        (n1 n2 a1 b1 a2 b2 res : string) (s : ProjectManagementSystem.t) :
  (result (run_project_planning p2 n2 a2 b2 s) = Returned res ->
   report_data
     (after (run_project_planning p2 n2 a2 b2
               (after (run_project_planning p1 n1 a1 b1 s)))) =
   report_data (after (run_project_planning p2 n2 a2 b2 s))) /\
  (result (analyze_project_status p2 n2 a2 b2 s) = Returned res ->
   report_data
     (after (analyze_project_status p2 n2 a2 b2
               (after (analyze_project_status p1 n1 a1 b1 s)))) =
   report_data (after (analyze_project_status p2 n2 a2 b2 s))).
Proof.
  split.
  - rewrite !run_project_planning_unfold. cbn [result after].
    intros ->.
    destruct (snd (kickoff p1 (planning_crew a1 b1))); cbn [report_data];
      [same_lookups | reflexivity].
  - rewrite !analyze_project_status_unfold. cbn [result after].
    intros ->.
    destruct (snd (kickoff p1 (analysis_crew a1 b1))); cbn [report_data];
      [same_lookups | reflexivity].
Qed.

Lemma later_run_overwrites_the_earlier_witness :
  let s0 := ProjectManagementSystem.__init__ in
  let first := run_project_planning Stub.echo "12:00:00" "Build a shop" "3 devs" s0 in
  let second :=
    run_project_planning Stub.echo "12:05:00" "Build a to-do app" "2 devs, 1 designer"
      (after first) in
  report_data (after second) =
  report_data
    (after (run_project_planning Stub.echo "12:05:00"
              "Build a to-do app" "2 devs, 1 designer" s0)).
Proof.
  intros s0 first second.
  refine (proj1 (later_run_overwrites_the_earlier Stub.echo Stub.echo
                   "12:00:00" "12:05:00" "Build a shop" "3 devs"
                   "Build a to-do app" "2 devs, 1 designer" "Task Allocator:466" s0) _).
  vm_compute. reflexivity.
Defined.

(** A planning run and a status analysis do not interfere: made in
    either order, whether each returns or raises, they leave the same
    report data, the same total of tokens and the same records, the two
    new ones in the order of the runs. *)
Theorem planning_and_analysis_commute (p1 p2 : Provider)
        (n1 n2 d t st dl : string) (s : ProjectManagementSystem.t) :
  let plan := Session.Plan p1 n1 d t in
  let analyze := Session.Analyze p2 n2 st dl in
  let s12 := Session.apply_op (Session.apply_op s plan) analyze in
  let s21 := Session.apply_op (Session.apply_op s analyze) plan in
  report_data s12 = report_data s21 /\
  total_tokens (token_tracker s12) = total_tokens (token_tracker s21) /\
  session_history (token_tracker s12) ≡ₚ session_history (token_tracker s21) /\
  s_operations (get_summary (token_tracker s12)) =
    s_operations (get_summary (token_tracker s21)).
Proof.
  cbn zeta. cbn [Session.apply_op].
  rewrite !run_project_planning_unfold, !analyze_project_status_unfold.
  cbn [after].
  destruct (snd (kickoff p1 (planning_crew d t))) as [res1 | e1];
    destruct (snd (kickoff p2 (analysis_crew st dl))) as [res2 | e2];
    cbn [report_data token_tracker add_usage total_tokens session_history
         get_summary s_operations];
    repeat apply conj; try reflexivity.
  - same_lookups.
  - lia.
  - rewrite <- !app_assoc. apply Permutation_app_head. cbn. apply perm_swap.
  - rewrite !length_app. cbn. reflexivity.
Qed.

(** ** The window of recent records *)

Lemma slice_last_length_min {A} (n : nat) (xs : list A) :
  length (slice_last n xs) = Nat.min n (length xs).
Proof. unfold slice_last. rewrite length_drop. lia. Qed.

Lemma slice_last_slice_last {A} (m n : nat) (xs : list A) :
  (m <= n)%nat -> slice_last m (slice_last n xs) = slice_last m xs.
Proof.
  intros Hmn. unfold slice_last. rewrite length_drop, drop_drop. f_equal. lia.
Qed.

Lemma slice_last_snoc {A} (n : nat) (xs : list A) (x : A) :
  slice_last (S n) (xs ++ [x]) = slice_last n xs ++ [x].
Proof.
  unfold slice_last. rewrite length_app. cbn [length].
  replace (length xs + 1 - S n)%nat with (length xs - n)%nat by lia.
  apply drop_app_le. lia.
Qed.

(** The inline summary lists at most five records and the report at most
    ten, as many as the ledger holds when it holds fewer; the records of
    the inline summary are the last of those of the report, so the two
    views never disagree. *)
Theorem recent_views_are_bounded_and_nested (tr : TokenUsageTracker.t) :
  let h := session_history tr in
  length (f_recent (format_summary tr)) = Nat.min 5 (length h) /\
  length (slice_last 10 (s_history (get_summary tr))) = Nat.min 10 (length h) /\
  f_recent (format_summary tr) = slice_last 5 (slice_last 10 (s_history (get_summary tr))) /\
  (exists older, slice_last 10 (s_history (get_summary tr)) =
                 older ++ f_recent (format_summary tr)).
Proof.
  cbn zeta. cbn [format_summary get_summary f_recent s_history].
  repeat apply conj.
  - apply slice_last_length_min.
  - apply slice_last_length_min.
  - symmetry. apply slice_last_slice_last. lia.
  - rewrite <- (slice_last_slice_last 5 10) by lia.
    eexists. apply slice_last_suffix.
Qed.

(** The record just appended is always the last line of both views, and
    the lines before it are the most recent of the records there were:
    the window slides by one. *)
Theorem newest_record_is_shown_last (now : string) (n : Z) (c : float) (o : string)
        (tr : TokenUsageTracker.t) :
  let item := {| timestamp := now; operation := o; tokens := n; cost := c |} in
  let tr' := add_usage now n c o tr in
  f_recent (format_summary tr') = slice_last 4 (session_history tr) ++ [item] /\
  slice_last 10 (s_history (get_summary tr')) =
    slice_last 9 (session_history tr) ++ [item] /\
  last (f_recent (format_summary tr')) = Some item /\
  s_operations (get_summary tr') = s_operations (get_summary tr) + 1.
Proof.
  cbn zeta. cbn [format_summary get_summary f_recent s_history s_operations
                 add_usage session_history].
  repeat apply conj.
  - apply slice_last_snoc.
  - apply slice_last_snoc.
  - rewrite slice_last_snoc. apply last_snoc.
  - rewrite length_app. cbn [length]. lia.
Qed.

(** ** Newlines in the report *)

Lemma string_app_cons (x : ascii) (a b : string) :
  String x a +:+ b = String x (a +:+ b).
Proof. reflexivity. Qed.

Lemma string_app_assoc (a b c : string) : (a +:+ b) +:+ c = a +:+ (b +:+ c).
Proof.
  induction a as [| x a IH]; [reflexivity |].
  rewrite !string_app_cons. f_equal. exact IH.
Qed.

Lemma string_app_length (a b : string) :
  String.length (a +:+ b) = (String.length a + String.length b)%nat.
Proof.
  induction a as [| x a IH]; [reflexivity |].
  rewrite string_app_cons. cbn [String.length Nat.add]. f_equal. exact IH.
Qed.

Lemma count_newlines_app (a b : string) :
  Chars.count_newlines (a +:+ b) =
  (Chars.count_newlines a + Chars.count_newlines b)%nat.
Proof.
  induction a as [| x a IH]; [reflexivity |].
  rewrite string_app_cons. cbn [Chars.count_newlines].
  destruct (Ascii.eqb x (ascii_of_nat 10)); rewrite IH; reflexivity.
Qed.

Lemma replace_newline_app (new a b : string) :
  replace_newline new (a +:+ b) = replace_newline new a +:+ replace_newline new b.
Proof.
  induction a as [| x a IH]; [reflexivity |].
  rewrite string_app_cons. cbn [replace_newline].
  destruct (Ascii.eqb x (ascii_of_nat 10)); rewrite IH; [| reflexivity].
  symmetry. apply string_app_assoc.
Qed.

Lemma replace_newline_count (new s : string) :
  Chars.count_newlines (replace_newline new s) =
  (Chars.count_newlines s * Chars.count_newlines new)%nat.
Proof.
  induction s as [| x s IH]; [reflexivity |].
  cbn [replace_newline Chars.count_newlines].
  destruct (Ascii.eqb x (ascii_of_nat 10)) eqn:Ex.
  - rewrite count_newlines_app, IH. lia.
  - cbn [Chars.count_newlines]. rewrite Ex. exact IH.
Qed.

Lemma replace_newline_length (new s : string) :
  (String.length (replace_newline new s) + Chars.count_newlines s =
   String.length s + Chars.count_newlines s * String.length new)%nat.
Proof.
  induction s as [| x s IH]; [reflexivity |].
  cbn [replace_newline Chars.count_newlines String.length].
  destruct (Ascii.eqb x (ascii_of_nat 10)).
  - rewrite string_app_length. lia.
  - cbn [String.length]. lia.
Qed.

Lemma replace_newline_none (new s : string) :
  Chars.count_newlines s = 0%nat -> replace_newline new s = s.
Proof.
  induction s as [| x s IH]; [reflexivity |].
  cbn [replace_newline Chars.count_newlines].
  destruct (Ascii.eqb x (ascii_of_nat 10)); [discriminate |].
  intros H. now rewrite IH.
Qed.

(** In a report that is built, the plan and the analysis are shown with
    every newline turned into [<br/>]: the paragraph holds no newline, is
    four characters longer per newline of the text, is the text itself
    when the text has no newline, and the text of two parts put together
    is shown as the two parts shown one after the other. *)
Theorem report_text_has_no_newline (parse : MarkupParser) (report_date key v : string)
        (project_data : gmap string string) (token_usage : Summary)
        (story : list Flowable) :
  generate_project_report parse report_date project_data token_usage = Returned story ->
  key = "project_plan" \/ key = "status_analysis" ->
  project_data !! key = Some v ->
  exists text,
    In (Paragraph text normal_style) story /\
    text = replace_newline "<br/>" v /\
    Chars.count_newlines text = 0%nat /\
    String.length text = (String.length v + 4 * Chars.count_newlines v)%nat /\
    (Chars.count_newlines v = 0%nat -> text = v) /\
    (forall a b, v = a +:+ b ->
                 text = replace_newline "<br/>" a +:+ replace_newline "<br/>" b).
Proof.
  intros Hgen Hkey Hv. apply generate_returned in Hgen as [-> _].
  exists (replace_newline "<br/>" v).
  repeat apply conj.
  - destruct Hkey as [-> | ->]; unfold story_plan;
      rewrite Hv, !in_app_iff.
    + do 3 right. left. right. left. reflexivity.
    + do 4 right. left. right. left. reflexivity.
  - reflexivity.
  - rewrite replace_newline_count.
    change (Chars.count_newlines "<br/>") with 0%nat. lia.
  - pose proof (replace_newline_length "<br/>" v) as Hlen.
    change (String.length "<br/>") with 5%nat in Hlen. lia.
  - apply replace_newline_none.
  - intros a b ->. apply replace_newline_app.
Qed.

Lemma report_text_has_no_newline_witness :
  let plan := "Phase 1" +:+ NL +:+ "Phase 2" in
  exists story text,
    generate_project_report Stub.markup "November 03, 2026 at 10:00 AM"
      {[ "project_plan" := plan ]} (get_summary TokenUsageTracker.__init__)
      = Returned story /\
    In (Paragraph text normal_style) story /\
    text = "Phase 1<br/>Phase 2".
Proof.
  intros plan.
  assert (Hv : ({[ "project_plan" := plan ]} : gmap string string) !! "project_plan"
               = Some plan) by apply lookup_singleton_eq.
  assert (Hgen : generate_project_report Stub.markup "November 03, 2026 at 10:00 AM"
                   {[ "project_plan" := plan ]} (get_summary TokenUsageTracker.__init__) =
                 Returned (story_plan "November 03, 2026 at 10:00 AM"
                             {[ "project_plan" := plan ]}
                             (get_summary TokenUsageTracker.__init__)))
    by (vm_compute; reflexivity).
  destruct (report_text_has_no_newline Stub.markup "November 03, 2026 at 10:00 AM"
              "project_plan" plan {[ "project_plan" := plan ]}
              (get_summary TokenUsageTracker.__init__) _ Hgen
              (or_introl eq_refl) Hv) as (text & Hin & Htext & _).
  eexists _, text. split; [exact Hgen |]. split; [exact Hin |].
  rewrite Htext. reflexivity.
Defined.

(** ** The estimate at its edges *)

Lemma len_app (a b : string) : len (a +:+ b) = len a + len b.
Proof. unfold len. rewrite string_app_length. lia. Qed.

(** A text of fewer than four characters is metered as no tokens and no
    cost, and only such a text is; a longer text never counts fewer
    tokens than a shorter one; and metering two texts joined, as the
    entry points do with their inputs and their result, counts the
    tokens of the two metered apart, or one more. *)
Theorem estimate_edges_and_monotonicity (a b : string) :
  (fst (_estimate_tokens_and_cost a) = 0 <-> len a < 4) /\
  (len a < 4 -> _estimate_tokens_and_cost a = (0, 0%float)) /\
  (len a <= len b ->
   fst (_estimate_tokens_and_cost a) <= fst (_estimate_tokens_and_cost b)) /\
  fst (_estimate_tokens_and_cost a) + fst (_estimate_tokens_and_cost b)
    <= fst (_estimate_tokens_and_cost (a +:+ b))
    <= fst (_estimate_tokens_and_cost a) + fst (_estimate_tokens_and_cost b) + 1.
Proof.
  unfold _estimate_tokens_and_cost. cbn [fst].
  pose proof (len_nonneg a) as Ha. pose proof (len_nonneg b) as Hb.
  rewrite len_app.
  repeat apply conj.
  - intros H0. apply Z.div_small_iff in H0; lia.
  - intros Hlt. apply Z.div_small. lia.
  - intros Hlt. rewrite (Z.div_small (len a) 4) by lia. reflexivity.
  - intros Hle. apply Z.div_le_mono; lia.
  - Z.div_mod_to_equations. lia.
  - Z.div_mod_to_equations. lia.
Qed.

Lemma estimate_edges_and_monotonicity_witness :
  _estimate_tokens_and_cost "abc" = (0, 0%float) /\
  fst (_estimate_tokens_and_cost "abc") <= fst (_estimate_tokens_and_cost "abcdefgh").
Proof.
  pose proof (estimate_edges_and_monotonicity "abc" "abcdefgh") as (_ & Hsmall & Hmono & _).
  split.
  - apply Hsmall. vm_compute. reflexivity.
  - apply Hmono. vm_compute. discriminate.
Defined.

(** ** The instructions of the tasks *)

Lemma contains_unfold (s t : string) :
  contains s t =
  String.prefix t s || match s with EmptyString => false | String _ rest => contains rest t end.
Proof. destruct s; reflexivity. Qed.

Lemma prefix_app (t s : string) : String.prefix t (t +:+ s) = true.
Proof.
  induction t as [| x t IH]; [destruct s; reflexivity |].
  rewrite string_app_cons. cbn [String.prefix].
  destruct (ascii_dec x x) as [_ | Hne]; [exact IH | now destruct Hne].
Qed.

Lemma contains_app_r (a s t : string) :
  contains s t = true -> contains (a +:+ s) t = true.
Proof.
  intros Hs. induction a as [| x a IH]; [exact Hs |].
  rewrite string_app_cons, contains_unfold, IH. apply orb_true_r.
Qed.

Lemma contains_middle (a t b : string) : contains (a +:+ t +:+ b) t = true.
Proof.
  apply contains_app_r. rewrite contains_unfold, prefix_app. reflexivity.
Qed.

Lemma create_project_plan_shape (a : Agent) (d : string) :
  description (ProjectManagementTasks.create_project_plan a d) =
  Templates.plan_head +:+ d +:+ Templates.plan_tail.
Proof. reflexivity. Qed.

Lemma allocate_tasks_shape (a : Agent) (p t : string) :
  description (ProjectManagementTasks.allocate_tasks a p t) =
  Templates.allocation_head +:+ p +:+ Templates.allocation_middle +:+ t
    +:+ Templates.allocation_tail.
Proof. reflexivity. Qed.

Lemma monitor_progress_shape (a : Agent) (st : string) :
  description (ProjectManagementTasks.monitor_progress a st) =
  Templates.monitoring_head +:+ st +:+ Templates.monitoring_tail.
Proof. reflexivity. Qed.

Lemma review_quality_shape (a : Agent) (dl : string) :
  description (ProjectManagementTasks.review_quality a dl) =
  Templates.review_head +:+ dl +:+ Templates.review_tail.
Proof. reflexivity. Qed.

(** Whatever the caller passes is carried into the instructions of the
    task word for word: the description of the plan, the text given as
    the plan and the team information of the allocation, the status,
    the deliverables.  The agent and the expected output of a task do
    not depend on the text. *)
Theorem task_instructions_contain_the_inputs (a : Agent) (x y : string) :
  contains (description (ProjectManagementTasks.create_project_plan a x)) x = true /\
  contains (description (ProjectManagementTasks.allocate_tasks a x y)) x = true /\
  contains (description (ProjectManagementTasks.allocate_tasks a x y)) y = true /\
  contains (description (ProjectManagementTasks.monitor_progress a x)) x = true /\
  contains (description (ProjectManagementTasks.review_quality a x)) x = true /\
  agent (ProjectManagementTasks.create_project_plan a x) = a /\
  agent (ProjectManagementTasks.allocate_tasks a x y) = a /\
  agent (ProjectManagementTasks.monitor_progress a x) = a /\
  agent (ProjectManagementTasks.review_quality a x) = a /\
  expected_output (ProjectManagementTasks.create_project_plan a x) =
    "A comprehensive project plan with all required elements" /\
  expected_output (ProjectManagementTasks.allocate_tasks a x y) =
    "Detailed task allocation with assignments and timelines" /\
  expected_output (ProjectManagementTasks.monitor_progress a x) =
    "Progress report with analysis and recommendations" /\
  expected_output (ProjectManagementTasks.review_quality a x) =
    "Quality review report with detailed assessment".
Proof.
  rewrite create_project_plan_shape, !allocate_tasks_shape,
    monitor_progress_shape, review_quality_shape.
  repeat apply conj; try reflexivity.
  - apply contains_middle.
  - apply contains_middle.
  - rewrite <- (string_app_assoc Templates.allocation_head x),
      <- (string_app_assoc _ Templates.allocation_middle).
    apply contains_middle.
  - apply contains_middle.
  - apply contains_middle.
Qed.

(** The instructions are the fixed text of the template and the inputs:
    their length is that of the inputs plus 363 characters for the plan,
    431 for the allocation, 395 for the monitoring and 361 for the
    review. *)
Theorem task_instructions_length (a : Agent) (x y : string) :
  len (description (ProjectManagementTasks.create_project_plan a x)) = 363 + len x /\
  len (description (ProjectManagementTasks.allocate_tasks a x y)) = 431 + len x + len y /\
  len (description (ProjectManagementTasks.monitor_progress a x)) = 395 + len x /\
  len (description (ProjectManagementTasks.review_quality a x)) = 361 + len x.
Proof.
  rewrite create_project_plan_shape, allocate_tasks_shape,
    monitor_progress_shape, review_quality_shape.
  rewrite !len_app.
  change (len Templates.plan_head) with 49.
  change (len Templates.plan_tail) with 314.
  change (len Templates.allocation_head) with 116.
  change (len Templates.allocation_middle) with 31.
  change (len Templates.allocation_tail) with 284.
  change (len Templates.monitoring_head) with 111.
  change (len Templates.monitoring_tail) with 284.
  change (len Templates.review_head) with 97.
  change (len Templates.review_tail) with 264.
  lia.
Qed.

Lemma string_app_inv_head (h a b : string) : h +:+ a = h +:+ b -> a = b.
Proof.
  induction h as [| x h IH]; [auto |].
  rewrite !string_app_cons. intros [= H]. auto.
Qed.

Lemma string_app_inv_tail (t a b : string) : a +:+ t = b +:+ t -> a = b.
Proof.
  revert b. induction a as [| x a IH]; intros [| y b] H.
  - reflexivity.
  - exfalso. apply (f_equal String.length) in H.
    rewrite !string_app_length in H. cbn [String.length] in H. lia.
  - exfalso. apply (f_equal String.length) in H.
    rewrite !string_app_length in H. cbn [String.length] in H. lia.
  - rewrite !string_app_cons in H. injection H as -> H. f_equal. auto.
Qed.

(** The three templates with one field lose nothing of it: two plans,
    two status reports or two lists of deliverables give the same
    instructions only if they are the same text. *)
Theorem one_field_instructions_determine_the_input (a a' : Agent) (x y : string) :
  (description (ProjectManagementTasks.create_project_plan a x) =
   description (ProjectManagementTasks.create_project_plan a' y) <-> x = y) /\
  (description (ProjectManagementTasks.monitor_progress a x) =
   description (ProjectManagementTasks.monitor_progress a' y) <-> x = y) /\
  (description (ProjectManagementTasks.review_quality a x) =
   description (ProjectManagementTasks.review_quality a' y) <-> x = y).
Proof.
  rewrite !create_project_plan_shape, !monitor_progress_shape, !review_quality_shape.
  repeat apply conj; try (intros ->; reflexivity); intros H;
    apply string_app_inv_head in H; now apply string_app_inv_tail in H.
Qed.

(** ** The forms of the front-end *)

Lemma planning_tab_unfold (provider : Provider) (now : string) (button : bool)
      (a b : string) (system : ProjectManagementSystem.t) :
  Streamlit.planning_tab provider now button a b system =
  if App.submitted button a b then
    let r := run_project_planning provider now a b system in
    {| Streamlit.provider_calls := calls r;
       Streamlit.shown :=
         match result r with
         | Returned res =>
             Streamlit.Completed
               ("✅ Project Planning Complete:" +:+ NL +:+ NL +:+ res)
               (format_summary (token_tracker (after r)))
         | Raised e => Streamlit.Failed ("❌ Error in planning: " +:+ e)
         end;
       Streamlit.system_after := after r |}
  else
    {| Streamlit.provider_calls := [];
       Streamlit.shown := Streamlit.Idle;
       Streamlit.system_after := system |}.
Proof.
  unfold Streamlit.planning_tab, App.submitted.
  destruct (button && truthy a && truthy b); [| reflexivity].
  cbn zeta. destruct (result (run_project_planning provider now a b system)); reflexivity.
Qed.

Lemma status_tab_unfold (provider : Provider) (now : string) (button : bool)
      (a b : string) (system : ProjectManagementSystem.t) :
  Streamlit.status_tab provider now button a b system =
  if App.submitted button a b then
    let r := analyze_project_status provider now a b system in
    {| Streamlit.provider_calls := calls r;
       Streamlit.shown :=
         match result r with
         | Returned res =>
             Streamlit.Completed
               ("✅ Status Analysis Complete:" +:+ NL +:+ NL +:+ res)
               (format_summary (token_tracker (after r)))
         | Raised e => Streamlit.Failed ("❌ Error in analysis: " +:+ e)
         end;
       Streamlit.system_after := after r |}
  else
    {| Streamlit.provider_calls := [];
       Streamlit.shown := Streamlit.Idle;
       Streamlit.system_after := system |}.
Proof.
  unfold Streamlit.status_tab, App.submitted.
  destruct (button && truthy a && truthy b); [| reflexivity].
  cbn zeta. destruct (result (analyze_project_status provider now a b system)); reflexivity.
Qed.

Lemma truthy_false (s : string) : truthy s = false <-> s = EmptyString.
Proof. destruct s; cbn; split; congruence. Qed.

Lemma submitted_false (button : bool) (a b : string) :
  App.submitted button a b = false <->
  button = false \/ a = EmptyString \/ b = EmptyString.
Proof.
  unfold App.submitted. rewrite !andb_false_iff, !truthy_false. tauto.
Qed.

(** The planning form, by what it shows.  Nothing, exactly when the form
    was not submitted (the button not pressed, or a field empty): the
    provider was not called and the session is as it was.
    An error: the run raised, the message is the exception's text after
    a fixed prefix, and the session is as it was; no exception leaves
    the handler.  The result: the run returned it, the session is the
    one the run left, and the usage summary shown beside it ends with
    the record of this very run. *)
Theorem planning_form_by_what_it_shows (provider : Provider) (now : string)
        (button : bool) (a b : string) (system : ProjectManagementSystem.t) :
  let h := Streamlit.planning_tab provider now button a b system in
  let r := run_project_planning provider now a b system in
  match Streamlit.shown h with
  | Streamlit.Idle =>
      (button = false \/ a = EmptyString \/ b = EmptyString) /\
      Streamlit.provider_calls h = [] /\
      Streamlit.system_after h = system
  | Streamlit.Failed message =>
      exists e,
        result r = Raised e /\
        message = "❌ Error in planning: " +:+ e /\
        Streamlit.provider_calls h = calls r /\
        Streamlit.system_after h = system
  | Streamlit.Completed output usage =>
      exists res item,
        result r = Returned res /\
        output = "✅ Project Planning Complete:" +:+ NL +:+ NL +:+ res /\
        Streamlit.provider_calls h = calls r /\
        Streamlit.system_after h = after r /\
        usage = format_summary (token_tracker (after r)) /\
        last (f_recent usage) = Some item /\
        operation item = "Project Planning" /\
        timestamp item = now /\
        tokens item = len ((a +:+ " " +:+ b) +:+ res) / 4
  end /\
  (button = false \/ a = EmptyString \/ b = EmptyString ->
   Streamlit.shown h = Streamlit.Idle).
Proof.
  cbn zeta. rewrite planning_tab_unfold. split.
  2: { intros Hnot. apply submitted_false in Hnot. now rewrite Hnot. }
  destruct (App.submitted button a b) eqn:Esub; cbn zeta.
  - cbn [Streamlit.shown Streamlit.provider_calls Streamlit.system_after].
    rewrite run_project_planning_unfold. cbn [result after calls].
    destruct (snd (kickoff provider (planning_crew a b))) as [res | e].
    + exists res,
        {| timestamp := now; operation := "Project Planning";
           tokens := len ((a +:+ " " +:+ b) +:+ res) / 4;
           cost := (truediv (len ((a +:+ " " +:+ b) +:+ res) / 4) 1000000 * 9)%float |}.
      repeat apply conj; try reflexivity.
      cbn [token_tracker format_summary get_summary f_recent s_history
           add_usage session_history].
      rewrite slice_last_snoc. apply last_snoc.
    + exists e. repeat split.
  - cbn. repeat split. now apply submitted_false.
Qed.

Lemma planning_form_by_what_it_shows_witness :
  Streamlit.shown
    (Streamlit.planning_tab Stub.echo "12:00:00" true "" "2 devs"
       ProjectManagementSystem.__init__) = Streamlit.Idle /\
  Streamlit.shown
    (Streamlit.planning_tab Stub.echo "12:00:00" false "Build a to-do app" "2 devs"
       ProjectManagementSystem.__init__) = Streamlit.Idle.
Proof.
  split.
  - refine (proj2 (planning_form_by_what_it_shows Stub.echo "12:00:00" true "" "2 devs"
                     ProjectManagementSystem.__init__) _).
    right. left. reflexivity.
  - refine (proj2 (planning_form_by_what_it_shows Stub.echo "12:00:00" false "Build a to-do app" "2 devs"
                     ProjectManagementSystem.__init__) _).
    left. reflexivity.
Defined.

(** The status form, by what it shows; as for the planning form: nothing
    exactly when it was not submitted, an error when the run raised, the
    result and the usage summary when it returned. *)
Theorem status_form_by_what_it_shows (provider : Provider) (now : string)
        (button : bool) (a b : string) (system : ProjectManagementSystem.t) :
  let h := Streamlit.status_tab provider now button a b system in
  let r := analyze_project_status provider now a b system in
  match Streamlit.shown h with
  | Streamlit.Idle =>
      (button = false \/ a = EmptyString \/ b = EmptyString) /\
      Streamlit.provider_calls h = [] /\
      Streamlit.system_after h = system
  | Streamlit.Failed message =>
      exists e,
        result r = Raised e /\
        message = "❌ Error in analysis: " +:+ e /\
        Streamlit.provider_calls h = calls r /\
        Streamlit.system_after h = system
  | Streamlit.Completed output usage =>
      exists res item,
        result r = Returned res /\
        output = "✅ Status Analysis Complete:" +:+ NL +:+ NL +:+ res /\
        Streamlit.provider_calls h = calls r /\
        Streamlit.system_after h = after r /\
        usage = format_summary (token_tracker (after r)) /\
        last (f_recent usage) = Some item /\
        operation item = "Status Analysis" /\
        timestamp item = now /\
        tokens item = len ((a +:+ " " +:+ b) +:+ res) / 4
  end /\
  (button = false \/ a = EmptyString \/ b = EmptyString ->
   Streamlit.shown h = Streamlit.Idle).
Proof.
  cbn zeta. rewrite status_tab_unfold. split.
  2: { intros Hnot. apply submitted_false in Hnot. now rewrite Hnot. }
  destruct (App.submitted button a b) eqn:Esub; cbn zeta.
  - cbn [Streamlit.shown Streamlit.provider_calls Streamlit.system_after].
    rewrite analyze_project_status_unfold. cbn [result after calls].
    destruct (snd (kickoff provider (analysis_crew a b))) as [res | e].
    + exists res,
        {| timestamp := now; operation := "Status Analysis";
           tokens := len ((a +:+ " " +:+ b) +:+ res) / 4;
           cost := (truediv (len ((a +:+ " " +:+ b) +:+ res) / 4) 1000000 * 9)%float |}.
      repeat apply conj; try reflexivity.
      cbn [token_tracker format_summary get_summary f_recent s_history
           add_usage session_history].
      rewrite slice_last_snoc. apply last_snoc.
    + exists e. repeat split.
  - cbn. repeat split. now apply submitted_false.
Qed.

Lemma status_form_by_what_it_shows_witness :
  Streamlit.shown
    (Streamlit.status_tab Stub.echo "12:00:00" true "" "2 devs"
       ProjectManagementSystem.__init__) = Streamlit.Idle /\
  Streamlit.shown
    (Streamlit.status_tab Stub.echo "12:00:00" false "Build a to-do app" "2 devs"
       ProjectManagementSystem.__init__) = Streamlit.Idle.
Proof.
  split.
  - refine (proj2 (status_form_by_what_it_shows Stub.echo "12:00:00" true "" "2 devs"
                     ProjectManagementSystem.__init__) _).
    right. left. reflexivity.
  - refine (proj2 (status_form_by_what_it_shows Stub.echo "12:00:00" false "Build a to-do app" "2 devs"
                     ProjectManagementSystem.__init__) _).
    left. reflexivity.
Defined.

(** ** Passes of the script *)

Lemma pass_session (parse : MarkupParser) (provider : Provider) (clock : App.Clock)
      (st : option ProjectManagementSystem.t) (inp : App.Inputs) :
  App.session (App.run_streamlit_app parse provider clock st inp) =
  fold_left Session.apply_op (App.pass_ops provider clock inp)
            (default ProjectManagementSystem.__init__ st).
Proof.
  unfold App.run_streamlit_app, App.pass_ops.
  destruct (App.key_missing (App.api_key inp)); [destruct st; reflexivity |].
  cbn [App.session]. rewrite planning_tab_unfold, status_tab_unfold.
  destruct st as [s |]; cbn [default];
    destruct (App.submitted (App.plan_button inp) (App.project_desc inp) (App.team_info inp));
    destruct (App.submitted (App.analyze_button inp) (App.status_info inp)
                (App.deliverables_info inp));
    reflexivity.
Qed.

Lemma pass_without_submission (parse : MarkupParser) (provider : Provider) (clock : App.Clock)
      (st : option ProjectManagementSystem.t) (inp : App.Inputs) :
  App.pass_ops provider clock inp = [] ->
  App.pass_calls (App.run_streamlit_app parse provider clock st inp) = [].
Proof.
  unfold App.run_streamlit_app, App.pass_ops.
  destruct (App.key_missing (App.api_key inp)); [reflexivity |].
  cbn [App.pass_calls]. rewrite planning_tab_unfold, status_tab_unfold.
  destruct (App.submitted (App.plan_button inp) (App.project_desc inp) (App.team_info inp));
    [discriminate |].
  destruct (App.submitted (App.analyze_button inp) (App.status_info inp)
              (App.deliverables_info inp)); [discriminate |].
  reflexivity.
Qed.

Lemma run_passes_from (parse : MarkupParser)
      (passes : list (Provider * App.Clock * App.Inputs))
      (st : option ProjectManagementSystem.t) :
  fold_left (fun st p => Some (App.session (App.run_streamlit_app parse p.1.1 p.1.2 st p.2)))
            passes st =
  match passes with
  | [] => st
  | _ :: _ =>
      Some (fold_left Session.apply_op
              (flat_map (fun p => App.pass_ops p.1.1 p.1.2 p.2) passes)
              (default ProjectManagementSystem.__init__ st))
  end.
Proof.
  revert st. induction passes as [| p passes IH]; intros st; [reflexivity |].
  cbn [fold_left flat_map]. rewrite IH, pass_session, fold_left_app.
  destruct passes; reflexivity.
Qed.

(** Whatever the passes of a front-end session, with or without the key,
    with any buttons and fields, the system it keeps is one the two entry
    points alone can produce from a fresh system; so its totals are the
    sums of its records, its records are well formed, and its report data
    holds the sections of the recorded operations and is empty exactly
    when the ledger is. *)
Theorem front_end_session_is_a_sequence_of_runs (parse : MarkupParser)
        (passes : list (Provider * App.Clock * App.Inputs)) :
  match App.run_passes parse passes with
  | None => passes = []
  | Some s =>
      s = Session.run_ops (flat_map (fun p => App.pass_ops p.1.1 p.1.2 p.2) passes) /\
      Session.totals_match (token_tracker s) /\
      History.ledger_well_formed (token_tracker s) /\
      History.report_matches_ledger s /\
      (report_data s = ∅ <-> session_history (token_tracker s) = [])
  end.
Proof.
  unfold App.run_passes. rewrite run_passes_from.
  destruct passes as [| p passes]; [reflexivity |].
  cbn [default]. fold (Session.run_ops (flat_map (fun p => App.pass_ops p.1.1 p.1.2 p.2)
                                          (p :: passes))).
  set (os := flat_map _ _).
  assert (Hwf : History.ledger_well_formed (token_tracker (Session.run_ops os)))
    by (apply fold_ops_well_formed; constructor).
  assert (Hok : History.report_matches_ledger (Session.run_ops os))
    by (apply fold_ops_report_matches, fresh_report_matches_ledger).
  split; [reflexivity |].
  split; [apply fold_ops_totals_match, fresh_totals_match |].
  split; [exact Hwf |].
  split; [exact Hok |].
  apply (matching_report_empty_iff _ Hok Hwf).
Qed.

(** Without the key, or when neither form is submitted with both of its
    fields filled in, a pass calls the provider not once and leaves the
    session as it found it (a fresh system on the first pass). *)
Theorem pass_without_key_or_submission_runs_nothing (parse : MarkupParser)
        (provider : Provider)
        (clock : App.Clock) (st : option ProjectManagementSystem.t) (inp : App.Inputs) :
  App.key_missing (App.api_key inp) = true \/
  (App.submitted (App.plan_button inp) (App.project_desc inp) (App.team_info inp) = false /\
   App.submitted (App.analyze_button inp) (App.status_info inp)
     (App.deliverables_info inp) = false) ->
  let p := App.run_streamlit_app parse provider clock st inp in
  App.pass_calls p = [] /\
  App.session p = default ProjectManagementSystem.__init__ st /\
  App.plan_area p = Streamlit.Idle /\
  App.status_area p = Streamlit.Idle /\
  (App.stopped p = true <-> App.key_missing (App.api_key inp) = true).
Proof.
  intros Hidle. cbn zeta.
  assert (Hops : App.pass_ops provider clock inp = []).
  { unfold App.pass_ops. destruct Hidle as [-> | [-> ->]]; [reflexivity |].
    destruct (App.key_missing (App.api_key inp)); reflexivity. }
  split; [now apply pass_without_submission |].
  split; [rewrite pass_session, Hops; reflexivity |].
  unfold App.run_streamlit_app.
  destruct (App.key_missing (App.api_key inp)) eqn:Ekey; cbn.
  - repeat split.
  - destruct Hidle as [Habs | [Hp Ha]]; [discriminate |].
    rewrite planning_tab_unfold, status_tab_unfold, Hp, Ha. cbn.
    repeat split; discriminate.
Qed.

Lemma pass_without_key_or_submission_runs_nothing_witness :
  let inp :=
    {| App.api_key := None; App.pdf_button := true;
       App.project_desc := "Build a to-do app"; App.team_info := "2 devs";
       App.plan_button := true;
       App.status_info := ""; App.deliverables_info := "";
       App.analyze_button := false; App.refresh_button := false |} in
  let clock :=
    {| App.report_date := "November 03, 2026 at 10:00 AM";
       App.file_stamp := "20261103_100000";
       App.plan_time := "10:00:00"; App.status_time := "10:00:01" |} in
  App.pass_calls (App.run_streamlit_app Stub.markup Stub.echo clock None inp) = [] /\
  App.session (App.run_streamlit_app Stub.markup Stub.echo clock None inp) =
    ProjectManagementSystem.__init__.
Proof.
  intros inp clock.
  pose proof (pass_without_key_or_submission_runs_nothing Stub.markup Stub.echo clock
                None inp
                (or_introl eq_refl)) as (Hcalls & Hsession & _).
  split; [exact Hcalls | exact Hsession].
Defined.

Lemma run_passes_empty_iff (parse : MarkupParser)
      (passes : list (Provider * App.Clock * App.Inputs)) :
  let s := default ProjectManagementSystem.__init__ (App.run_passes parse passes) in
  report_data s = ∅ <-> session_history (token_tracker s) = [].
Proof.
  unfold App.run_passes. rewrite run_passes_from.
  destruct passes as [| p passes]; [cbn; tauto |].
  cbn [default]. apply matching_report_empty_iff.
  - apply fold_ops_report_matches, fresh_report_matches_ledger.
  - apply fold_ops_well_formed. constructor.
Qed.

Lemma pdf_section_cases (empty button : bool) (name : string)
      (built : outcome (list Flowable)) :
  let section :=
    if empty then App.Hidden
    else if button then
      match built with
      | Returned story => App.Download name story
      | Raised e => App.PdfError ("❌ Error generating PDF: " +:+ e)
      end
    else App.Offered in
  (section = App.Hidden <-> empty = true) /\
  (section = App.Offered <-> empty = false /\ button = false) /\
  (forall n story,
      section = App.Download n story <->
      empty = false /\ button = true /\ n = name /\ built = Returned story) /\
  (forall message,
      section = App.PdfError message <->
      empty = false /\ button = true /\
      exists e, built = Raised e /\ message = "❌ Error generating PDF: " +:+ e).
Proof.
  cbn zeta. destruct empty, button, built as [story | e];
    (split; [| split; [| split]]); intros; (split; [pdf_forward | pdf_backward]).
Qed.

(** With the key set, the section of the report above the tabs is drawn
    exactly when the ledger of the session, as the pass finds it, has a
    record; on the first pass of a session it is never drawn.  With its
    button idle the section only offers the report.  With the button
    pressed the report is built from the session as the pass finds it,
    before the forms of the same pass run: built, it is offered for
    download under the stamped file name; when building it raises, the
    exception is caught and its text shown after a fixed prefix. *)
Theorem report_section_shows_the_session_as_found (parse : MarkupParser)
        (passes : list (Provider * App.Clock * App.Inputs))
        (provider : Provider) (clock : App.Clock) (inp : App.Inputs) :
  let st := App.run_passes parse passes in
  let found := default ProjectManagementSystem.__init__ st in
  let p := App.run_streamlit_app parse provider clock st inp in
  let built := generate_pdf_report parse (App.report_date clock) found in
  App.key_missing (App.api_key inp) = false ->
  (App.pdf p = App.Hidden <-> session_history (token_tracker found) = []) /\
  (passes = [] -> App.pdf p = App.Hidden) /\
  (App.pdf p = App.Offered <->
   session_history (token_tracker found) <> [] /\ App.pdf_button inp = false) /\
  (forall name story,
      App.pdf p = App.Download name story <->
      session_history (token_tracker found) <> [] /\
      App.pdf_button inp = true /\
      name = "project_report_" +:+ App.file_stamp clock +:+ ".pdf" /\
      built = Returned story) /\
  (forall message,
      App.pdf p = App.PdfError message <->
      session_history (token_tracker found) <> [] /\
      App.pdf_button inp = true /\
      exists e, built = Raised e /\ message = "❌ Error generating PDF: " +:+ e).
Proof.
  cbn zeta. intros Hkey.
  pose proof (run_passes_empty_iff parse passes) as Hempty. cbn zeta in Hempty.
  unfold App.run_streamlit_app. rewrite Hkey. cbn [App.pdf].
  replace (match App.run_passes parse passes with
           | Some s => s
           | None => ProjectManagementSystem.__init__
           end)
    with (default ProjectManagementSystem.__init__ (App.run_passes parse passes))
    by (destruct (App.run_passes parse passes); reflexivity).
  set (found := default ProjectManagementSystem.__init__ (App.run_passes parse passes)) in *.
  pose proof (pdf_section_cases (bool_decide (report_data found = ∅))
                (App.pdf_button inp)
                ("project_report_" +:+ App.file_stamp clock +:+ ".pdf")
                (generate_pdf_report parse (App.report_date clock) found))
    as (Hhidden & Hoffered & Hdownload & Herror).
  cbn zeta in Hhidden, Hoffered, Hdownload, Herror.
  assert (Htrue : bool_decide (report_data found = ∅) = true <->
                  session_history (token_tracker found) = [])
    by (rewrite bool_decide_eq_true; exact Hempty).
  assert (Hfalse : bool_decide (report_data found = ∅) = false <->
                   session_history (token_tracker found) <> [])
    by (rewrite bool_decide_eq_false, Hempty; reflexivity).
  split; [rewrite Hhidden; exact Htrue |].
  split; [intros ->; apply Hhidden; reflexivity |].
  split; [rewrite Hoffered, Hfalse; reflexivity |].
  split.
  - intros name story. rewrite Hdownload, Hfalse. reflexivity.
  - intros message. rewrite Herror, Hfalse. reflexivity.
Qed.

Lemma report_section_shows_the_session_as_found_witness :
  let clock :=
    {| App.report_date := "November 03, 2026 at 10:00 AM";
       App.file_stamp := "20261103_100000";
       App.plan_time := "10:00:00"; App.status_time := "10:00:01" |} in
  let plan :=
    {| App.api_key := Some "sk-test"; App.pdf_button := true;
       App.project_desc := "Build a to-do app"; App.team_info := "2 devs, 1 designer";
       App.plan_button := true;
       App.status_info := ""; App.deliverables_info := "";
       App.analyze_button := false; App.refresh_button := false |} in
  let report :=
    {| App.api_key := Some "sk-test"; App.pdf_button := true;
       App.project_desc := ""; App.team_info := "";
       App.plan_button := false;
       App.status_info := ""; App.deliverables_info := "";
       App.analyze_button := false; App.refresh_button := false |} in
  let first := App.run_streamlit_app Stub.markup Stub.echo clock None plan in
  let second :=
    App.run_streamlit_app Stub.markup Stub.echo clock
      (App.run_passes Stub.markup [(Stub.echo, clock, plan)]) report in
  App.pdf first = App.Hidden /\
  exists story,
    App.pdf second = App.Download "project_report_20261103_100000.pdf" story.
Proof.
  intros clock plan report first second.
  pose proof (report_section_shows_the_session_as_found Stub.markup []
                Stub.echo clock plan eq_refl) as (_ & Hfirst & _).
  pose proof (report_section_shows_the_session_as_found Stub.markup
                [(Stub.echo, clock, plan)] Stub.echo clock report eq_refl)
    as (_ & _ & _ & Hdownload & _).
  split; [exact (Hfirst eq_refl) |].
  eexists. apply Hdownload.
  split; [vm_compute; discriminate |].
  split; [reflexivity |].
  split; [reflexivity |].
  vm_compute. reflexivity.
Defined.

(** ** The frame of the report *)

Lemma history_heading_iff (report_date : string) (project_data : gmap string string)
      (token_usage : Summary) :
  In (Paragraph "🕒 Operation History" heading_style)
     (story_plan report_date project_data token_usage) <->
  s_history token_usage <> [].
Proof.
  unfold story_plan. rewrite !in_app_iff.
  split.
  - intros [Hin | [Hin | [Hin | [Hin | [Hin | [Hin | [Hin | Hin]]]]]]].
    + exfalso; revert Hin. absent_from_piece.
    + exfalso; revert Hin. absent_from_section project_data "project_description".
    + exfalso; revert Hin. absent_from_section project_data "team_info".
    + exfalso; revert Hin. absent_from_section project_data "project_plan".
    + exfalso; revert Hin. absent_from_section project_data "status_analysis".
    + exfalso; revert Hin. absent_from_piece.
    + destruct (s_history token_usage); [destruct Hin | discriminate].
    + exfalso; revert Hin. absent_from_piece.
  - intros Hne. do 6 right. left.
    destruct (s_history token_usage); [congruence | left; reflexivity].
Qed.

(** Every report that is built opens with the title and the date of
    generation and closes with the footer, whatever the report data and
    the ledger; the heading of the token usage is always there, and the
    operation history exactly when the ledger has a record, be it one. *)
Theorem report_frame (parse : MarkupParser) (report_date : string)
        (project_data : gmap string string) (token_usage : Summary)
        (story : list Flowable) :
  generate_project_report parse report_date project_data token_usage = Returned story ->
  (exists rest,
      story = Paragraph "🚀 Project Management Report" title_style
              :: Spacer 1 20
              :: Paragraph ("<b>Generated:</b> " +:+ report_date) normal_style
              :: Spacer 1 20 :: rest) /\
  last story =
    Some (Paragraph "Generated by AI-Powered Project Management System" footer_style) /\
  In (Paragraph "💰 Token Usage Summary" heading_style) story /\
  (In (Paragraph "🕒 Operation History" heading_style) story <->
   s_history token_usage <> []).
Proof.
  intros Hgen. apply generate_returned in Hgen as [-> _].
  split; [| split; [| split]].
  - unfold story_plan. eexists. reflexivity.
  - unfold story_plan. rewrite !app_assoc, last_app. reflexivity.
  - unfold story_plan. rewrite !in_app_iff.
    do 5 right. left. left. reflexivity.
  - apply history_heading_iff.
Qed.

Lemma report_frame_witness :
  exists story,
    generate_project_report Stub.markup "November 03, 2026 at 10:00 AM"
      {[ "project_plan" := "Phase 1" ]} (get_summary TokenUsageTracker.__init__)
      = Returned story /\
    last story =
      Some (Paragraph "Generated by AI-Powered Project Management System" footer_style).
Proof.
  assert (Hgen : generate_project_report Stub.markup "November 03, 2026 at 10:00 AM"
                   {[ "project_plan" := "Phase 1" ]}
                   (get_summary TokenUsageTracker.__init__) =
                 Returned (story_plan "November 03, 2026 at 10:00 AM"
                             {[ "project_plan" := "Phase 1" ]}
                             (get_summary TokenUsageTracker.__init__)))
    by (vm_compute; reflexivity).
  eexists. split; [exact Hgen |].
  exact (proj1 (proj2 (report_frame _ _ _ _ _ Hgen))).
Defined.

(** ** What reaches the Allocator *)

Lemma allocation_head_ends_with_the_plan_label :
  Templates.allocation_head =
  String.concat NL
    [ "";
      ProjectManagementTasks.indent
        +:+ "Based on the project plan and team information, allocate tasks:";
      ProjectManagementTasks.indent;
      ProjectManagementTasks.indent ]
  +:+ "Project Plan: ".
Proof. reflexivity. Qed.

(** C7, as the program has it: when the Planner's call returns, its
    output is handed to the Allocator stage as the context of the
    Allocator's request, which the sequential crew passes on with the
    stage's instructions.  The instruction text itself is rendered before
    the run: it is the template with the caller's project description in
    the place of the project plan and the team information after it,
    whatever the Planner returns. *)
Theorem planner_output_reaches_the_allocator_as_context (provider : Provider)
        (now d t plan : string) (self : ProjectManagementSystem.t) :
  provider (planner_request d) = Returned plan ->
  let r := run_project_planning provider now d t self in
  exists rq,
    calls r = [planner_request d; rq] /\
    role (req_agent rq) = "Task Allocator" /\
    req_context rq = [plan] /\
    req_instructions rq =
      Templates.allocation_head +:+ d +:+ Templates.allocation_middle +:+ t
        +:+ Templates.allocation_tail /\
    contains (req_instructions rq) ("Project Plan: " +:+ d) = true /\
    (forall other, req_instructions (allocator_request d t other) = req_instructions rq).
Proof.
  intros Hplan. cbn zeta. exists (allocator_request d t plan).
  split; [rewrite run_project_planning_calls, Hplan; reflexivity |].
  split; [reflexivity |].
  split; [reflexivity |].
  assert (Hshape : req_instructions (allocator_request d t plan) =
                   Templates.allocation_head +:+ d +:+ Templates.allocation_middle +:+ t
                     +:+ Templates.allocation_tail)
    by apply allocate_tasks_shape.
  split; [exact Hshape |].
  split; [| reflexivity].
  rewrite Hshape, allocation_head_ends_with_the_plan_label.
  rewrite string_app_assoc, <- (string_app_assoc "Project Plan: " d).
  apply contains_middle.
Qed.

Lemma planner_output_reaches_the_allocator_as_context_witness :
  let r := run_project_planning Stub.echo "12:00:00"
             "Build a to-do app" "2 devs, 1 designer"
             ProjectManagementSystem.__init__ in
  exists rq,
    calls r = [planner_request "Build a to-do app"; rq] /\
    req_context rq = ["Project Planner:380"] /\
    contains (req_instructions rq) "Project Plan: Build a to-do app" = true.
Proof.
  intros r.
  destruct (planner_output_reaches_the_allocator_as_context Stub.echo "12:00:00"
              "Build a to-do app" "2 devs, 1 designer" "Project Planner:380"
              ProjectManagementSystem.__init__ eq_refl)
    as (rq & Hcalls & _ & Hcontext & _ & Hlabel & _).
  exists rq. split; [exact Hcalls |]. split; [exact Hcontext | exact Hlabel].
Defined.

(** ** A text the document library refuses *)

(** With the test parser, a plan with a tag left open makes the report
    raise. *)
Example unclosed_tag_fails_the_report :
  generate_project_report Stub.markup "November 03, 2026 at 10:00 AM"
    {[ "project_plan" := "use <b>bold" ]} (get_summary TokenUsageTracker.__init__)
  = Raised "unclosed <b> tag".
Proof. vm_compute. reflexivity. Qed.
